(** * KnightRiderAdventure: a shallow embedding of the smart-car sketch

    The sketch [KnightRiderAdventure.ino] drives a two-motor car from three
    ultrasonic sensors.  This file embeds the classes [Car] and [Eyes], the
    globals of the sketch and [rescueMission] as state-passing functions over
    a [World], and proves the properties of the design document about them.

    Conventions of the embedding:
    - [int] is the 16-bit two's-complement integer of the AVR target; it is a
      [Z] with its wrap-around ([wrap16]) written where the code computes;
    - [unsigned long] is 32 bits ([wrap32]);
    - the sensors, the random generator and the millisecond clock are input
      tapes ([nat -> N]) read through cursors, so every run of the sketch is
      a function of the tapes;
    - motor, display and delay calls are appended to a chronological trace;
    - [measureFrontDistance] recurses while the mean is zero, so it takes
      fuel and returns [None] when the fuel runs out. *)

From Stdlib Require Import ZArith List String Lia Bool.
Import ListNotations.
Open Scope Z_scope.

(** ** Machine integers *)

Definition INT_MAX : Z := 32767.

(** Conversion to a 16-bit signed [int]. *)
Definition wrap16 (z : Z) : Z := (z + 32768) mod 65536 - 32768.

(** Conversion to a 32-bit [unsigned long]. *)
Definition wrap32 (z : Z) : Z := z mod 4294967296.

(** Conversion to the [uint8_t] argument of [AF_DCMotor::setSpeed]. *)
Definition to_uint8 (z : Z) : Z := z mod 256.

(** [#define MAX_DISTANCE 300] *)
Definition MAX_DISTANCE : Z := 300.

(** ** Hardware events *)

Inductive Motor : Type := leftMotor | rightMotor.

Inductive Direction : Type := FORWARD | BACKWARD | RELEASE.

Inductive Sensor : Type := frontSensor | leftSensor | rightSensor.

Inductive Event : Type :=
| SetSpeed (m : Motor) (speed : Z)
| Run (m : Motor) (d : Direction)
| Delay (ms : Z)
| LcdSetCursor (col row : Z)
| LcdPrint (s : string)
| LcdPrintInt (n : Z).

(** ** State of the sketch *)

Record Car : Type := mkCar {
  averageSpeed : Z;
  maxSpeed : Z;
  minSpeed : Z
}.

Record Eyes : Type := mkEyes {
  front : Z;
  left : Z;
  right : Z
}.

(** The input tapes: what the three sensors, [random()] and [millis()]
    answer at their successive calls. *)
Record Env : Type := mkEnv {
  frontTape : nat -> N;
  leftTape : nat -> N;
  rightTape : nat -> N;
  randomTape : nat -> N;
  millisTape : nat -> N
}.

(** How far each tape has been read. *)
Record Cursors : Type := mkCursors {
  frontPos : nat;
  leftPos : nat;
  rightPos : nat;
  randomPos : nat;
  millisPos : nat
}.

Record World : Type := mkWorld {
  env : Env;
  pos : Cursors;
  trace : list Event;
  debugMode : Z;
  car : Car;
  eyes : Eyes;
  nonce : Z;
  beforeEyes : Z * Z * Z;
  longVision : Z;
  previousSense : Z
}.

Definition set_pos (p : Cursors) (w : World) : World :=
  mkWorld (env w) p (trace w) (debugMode w) (car w) (eyes w) (nonce w)
          (beforeEyes w) (longVision w) (previousSense w).

Definition set_trace (t : list Event) (w : World) : World :=
  mkWorld (env w) (pos w) t (debugMode w) (car w) (eyes w) (nonce w)
          (beforeEyes w) (longVision w) (previousSense w).

Definition set_car (c : Car) (w : World) : World :=
  mkWorld (env w) (pos w) (trace w) (debugMode w) c (eyes w) (nonce w)
          (beforeEyes w) (longVision w) (previousSense w).

Definition set_eyes (e : Eyes) (w : World) : World :=
  mkWorld (env w) (pos w) (trace w) (debugMode w) (car w) e (nonce w)
          (beforeEyes w) (longVision w) (previousSense w).

Definition set_nonce (n : Z) (w : World) : World :=
  mkWorld (env w) (pos w) (trace w) (debugMode w) (car w) (eyes w) n
          (beforeEyes w) (longVision w) (previousSense w).

Definition set_beforeEyes (b : Z * Z * Z) (w : World) : World :=
  mkWorld (env w) (pos w) (trace w) (debugMode w) (car w) (eyes w) (nonce w)
          b (longVision w) (previousSense w).

Definition set_longVision (n : Z) (w : World) : World :=
  mkWorld (env w) (pos w) (trace w) (debugMode w) (car w) (eyes w) (nonce w)
          (beforeEyes w) n (previousSense w).

(** ** The state-and-failure monad of the sketch *)

Definition M (A : Type) : Type := World -> option (A * World).

Definition ret {A : Type} (a : A) : M A := fun w => Some (a, w).

Definition bind {A B : Type} (m : M A) (f : A -> M B) : M B :=
  fun w => match m w with
           | Some (a, w') => f a w'
           | None => None
           end.

(** Out of fuel. *)
Definition diverge {A : Type} : M A := fun _ => None.

Definition gets {A : Type} (f : World -> A) : M A := fun w => Some (f w, w).

Definition modify (f : World -> World) : M unit := fun w => Some (tt, f w).

Notation "x <- m ;; k" := (bind m (fun x => k))
  (at level 61, m at next level, right associativity).
Notation "m ;; k" := (bind m (fun _ => k))
  (at level 61, right associativity).

(** ** Hardware primitives *)

Definition emit (e : Event) : M unit :=
  modify (fun w => set_trace (trace w ++ [e]) w).

Definition delay (ms : Z) : M unit := emit (Delay ms).

Definition setSpeed (m : Motor) (speed : Z) : M unit :=
  emit (SetSpeed m (to_uint8 speed)).

Definition run (m : Motor) (d : Direction) : M unit := emit (Run m d).

Definition tape (s : Sensor) (e : Env) : nat -> N :=
  match s with
  | frontSensor => frontTape e
  | leftSensor => leftTape e
  | rightSensor => rightTape e
  end.

Definition cursor (s : Sensor) (p : Cursors) : nat :=
  match s with
  | frontSensor => frontPos p
  | leftSensor => leftPos p
  | rightSensor => rightPos p
  end.

Definition advance (s : Sensor) (p : Cursors) : Cursors :=
  match s with
  | frontSensor =>
      mkCursors (S (frontPos p)) (leftPos p) (rightPos p) (randomPos p) (millisPos p)
  | leftSensor =>
      mkCursors (frontPos p) (S (leftPos p)) (rightPos p) (randomPos p) (millisPos p)
  | rightSensor =>
      mkCursors (frontPos p) (leftPos p) (S (rightPos p)) (randomPos p) (millisPos p)
  end.

(** [NewPing::ping_cm()]: the next reading of the sensor, an
    [unsigned long] number of centimetres, 0 when there is no echo. *)
Definition ping_cm (s : Sensor) : M Z :=
  fun w => Some (Z.of_N (tape s (env w) (cursor s (pos w))),
                 set_pos (advance s (pos w)) w).

Definition advanceRandom (p : Cursors) : Cursors :=
  mkCursors (frontPos p) (leftPos p) (rightPos p) (S (randomPos p)) (millisPos p).

Definition advanceMillis (p : Cursors) : Cursors :=
  mkCursors (frontPos p) (leftPos p) (rightPos p) (randomPos p) (S (millisPos p)).

(** The C library's [random()]: the next non-negative value of the tape. *)
Definition random_raw : M Z :=
  fun w => Some (Z.of_N (randomTape (env w) (randomPos (pos w))),
                 set_pos (advanceRandom (pos w)) w).

(** Arduino's [random(howsmall, howbig)]: [howsmall] when the range is
    empty, and otherwise [random() % (howbig - howsmall) + howsmall]. *)
Definition random (howsmall howbig : Z) : M Z :=
  if howsmall >=? howbig then ret howsmall
  else r <- random_raw ;; ret (r mod (howbig - howsmall) + howsmall).

(** Arduino's [millis()]: the next reading of the clock. *)
Definition millis : M Z :=
  fun w => Some (wrap32 (Z.of_N (millisTape (env w) (millisPos (pos w)))),
                 set_pos (advanceMillis (pos w)) w).

(** ** class Car *)

Definition drive (speed : Z) : M unit :=
  setSpeed leftMotor speed ;;
  setSpeed rightMotor speed ;;
  run leftMotor FORWARD ;;
  run rightMotor FORWARD.

Definition setTopSpeed : M unit :=
  top <- gets (fun w => maxSpeed (car w)) ;;
  setSpeed leftMotor top ;;
  setSpeed rightMotor top.

Definition set_averageSpeed (v : Z) : M unit :=
  modify (fun w => set_car (mkCar v (maxSpeed (car w)) (minSpeed (car w))) w).

(** The [switch] of [changeGear]: [default] shares the body of [case 1]. *)
Definition gearSpeed (gear : Z) : Z :=
  if gear =? 1 then 125
  else if gear =? 2 then 150
  else if gear =? 3 then 175
  else if gear =? 4 then 200
  else 125.

Definition changeGear (gear : Z) : M unit :=
  set_averageSpeed (gearSpeed gear) ;;
  speed <- gets (fun w => averageSpeed (car w)) ;;
  drive speed.

Definition reverse : M unit :=
  run leftMotor BACKWARD ;;
  run rightMotor BACKWARD.

Definition neutral : M unit :=
  run leftMotor RELEASE ;;
  run rightMotor RELEASE.

Definition leftTurn : M unit :=
  neutral ;;
  setTopSpeed ;;
  run leftMotor BACKWARD ;;
  run rightMotor FORWARD ;;
  delay 500 ;;
  neutral ;;
  delay 500.

Definition rightTurn : M unit :=
  neutral ;;
  setTopSpeed ;;
  run leftMotor FORWARD ;;
  run rightMotor BACKWARD ;;
  delay 500 ;;
  neutral ;;
  delay 500.

Definition leftUTurn : M unit :=
  neutral ;;
  setTopSpeed ;;
  run leftMotor BACKWARD ;;
  run rightMotor FORWARD ;;
  delay 1250 ;;
  neutral ;;
  delay 1000.

Definition rightUTurn : M unit :=
  neutral ;;
  setTopSpeed ;;
  run leftMotor FORWARD ;;
  run rightMotor BACKWARD ;;
  delay 1250 ;;
  neutral ;;
  delay 1000.

(** ** class Eyes *)

Definition CLEAR_PATH_AHEAD : Z := 1.
Definition PATH_CLOSING_UP : Z := 2.
Definition PATH_BLOCKED : Z := 3.
Definition NARROW_ROAD_LEFT_RIGHT : Z := 30.
Definition CLEAR_PATH_LEFT : Z := 40.
Definition CLEAR_PATH_RIGHT : Z := 50.
Definition SEEK_ALTERNATE_ROUTE : Z := 60.

Definition set_front (v : Z) : M unit :=
  modify (fun w => set_eyes (mkEyes v (left (eyes w)) (right (eyes w))) w).

Definition set_left (v : Z) : M unit :=
  modify (fun w => set_eyes (mkEyes (front (eyes w)) v (right (eyes w))) w).

Definition set_right (v : Z) : M unit :=
  modify (fun w => set_eyes (mkEyes (front (eyes w)) (left (eyes w)) v) w).

(** The sampling loop shared by the three measuring methods:
    [for (int i = 0; i < count; i++) { sum += sensor.ping_cm(); delay(5); }]
    with [n] iterations left.  The addition is done in [unsigned long] and
    stored back into the [int] [sum]. *)
Fixpoint pingLoop (s : Sensor) (n : nat) (sum : Z) : M Z :=
  match n with
  | O => ret sum
  | S n' =>
      p <- ping_cm s ;;
      delay 5 ;;
      pingLoop s n' (wrap16 (sum + p))
  end.

(** One batch: [int sum = 0; int count = random(3,6);], the loop, and the
    quotient [sum/count] of two [int]s, which truncates toward zero. *)
Definition sampleBatch (s : Sensor) : M Z :=
  r <- random 3 6 ;;
  let count := wrap16 r in
  sum <- pingLoop s (Z.to_nat count) 0 ;;
  ret (Z.quot sum count).

Fixpoint measureFrontDistance (fuel : nat) : M Z :=
  match fuel with
  | O => diverge
  | S fuel' =>
      q <- sampleBatch frontSensor ;;
      set_front q ;;
      v <- gets (fun w => front (eyes w)) ;;
      if v =? 0 then measureFrontDistance fuel' else ret v
  end.

Definition measureLeftDistance : M Z :=
  q <- sampleBatch leftSensor ;;
  set_left q ;;
  gets (fun w => left (eyes w)).

Definition measureRightDistance : M Z :=
  q <- sampleBatch rightSensor ;;
  set_right q ;;
  gets (fun w => right (eyes w)).

Definition openEyesWide (fuel : nat) : M unit :=
  measureFrontDistance fuel ;;
  measureLeftDistance ;;
  measureRightDistance ;;
  dbg <- gets debugMode ;;
  if dbg =? 0 then ret tt
  else
    e <- gets eyes ;;
    emit (LcdSetCursor 0 1) ;;
    emit (LcdPrint "                ") ;;
    emit (LcdSetCursor 0 1) ;;
    emit (LcdPrintInt (left e)) ;;
    emit (LcdSetCursor 6 1) ;;
    emit (LcdPrintInt (front e)) ;;
    emit (LcdSetCursor 13 1) ;;
    emit (LcdPrintInt (right e)).

(** The threshold chain of [suggestGear] on the measured distance. *)
Definition gearFor (distance : Z) : Z :=
  if distance >=? 275 then 4
  else if distance >=? 200 then 3
  else if distance >=? 100 then 2
  else 1.

Definition suggestGear (fuel : nat) : M Z :=
  distance <- measureFrontDistance fuel ;;
  ret (gearFor distance).

(** The decision of [commonSense] on the freshly measured fields.  The last
    [else if] has no [else]: when none of the three inner conditions holds,
    control reaches the end of the function without a [return], which is
    [None] here. *)
Definition commonSense_decide (e : Eyes) : option Z :=
  if front e >? 50 then Some CLEAR_PATH_AHEAD
  else if front e >? 40 then Some SEEK_ALTERNATE_ROUTE
  else if front e >? 30 then Some PATH_CLOSING_UP
  else
    if (left e <? 8) && (right e <? 8) then Some NARROW_ROAD_LEFT_RIGHT
    else if (left e >=? 8) && (left e >? right e) then Some CLEAR_PATH_LEFT
    else if (right e >=? 8) && (right e >? left e) then Some CLEAR_PATH_RIGHT
    else None.

Definition commonSense (fuel : nat) : M (option Z) :=
  openEyesWide fuel ;;
  e <- gets eyes ;;
  ret (commonSense_decide e).

Definition seekAlternateRoute_decide (e : Eyes) : Z :=
  if (front e <=? 40) && ((left e >? 80) || (right e >? 80)) then
    if left e >? right e then CLEAR_PATH_LEFT else CLEAR_PATH_RIGHT
  else NARROW_ROAD_LEFT_RIGHT.

Definition seekAlternateRoute (fuel : nat) : M Z :=
  openEyesWide fuel ;;
  e <- gets eyes ;;
  ret (seekAlternateRoute_decide e).

(** ** Helper functions and rescue mission *)

Definition csf : M unit :=
  emit (LcdSetCursor 0 0) ;;
  emit (LcdPrint "                ") ;;
  emit (LcdSetCursor 0 0).

(** Arduino's macro [abs(x)] is [((x)>0?(x):-(x))], here on an [int]:
    the negation wraps at the most negative value. *)
Definition int_abs (x : Z) : Z := if x >? 0 then x else wrap16 (- x).

(** The body of the [if( df <= frontTh )] block.  The two operands of
    [measureLeftDistance() > measureRightDistance()] are run left first. *)
Definition rescueManeuver (current0 df : Z) : M unit :=
  let longVisionTh := 5 in
  lv <- gets longVision ;;
  (if (current0 >? 100) && (df <=? longVisionTh)
   then modify (set_longVision (wrap16 (lv + 1)))
   else ret tt) ;;
  lv' <- gets longVision ;;
  if (lv' >? 2) || (current0 <? 100) then
    delay 50 ;;
    changeGear 1 ;;
    reverse ;;
    delay 1000 ;;
    l <- measureLeftDistance ;;
    r <- measureRightDistance ;;
    (if l >? r then leftUTurn else rightUTurn) ;;
    modify (set_longVision 0)
  else ret tt.

(** [millis() - nonce] is a difference of [unsigned long]s; the three
    initialisers of [currentEyes] run in the order they are written;
    [beforeEyes[0] - currentEyes[0]] is a difference of [int]s. *)
Definition rescueMission (fuel : nat) : M unit :=
  now <- millis ;;
  started <- gets nonce ;;
  if wrap32 (now - started) >? 5000 then
    current0 <- measureFrontDistance fuel ;;
    current1 <- measureLeftDistance ;;
    current2 <- measureRightDistance ;;
    let frontTh := 10 in
    csf ;;
    emit (LcdPrint "TH=") ;;
    emit (LcdSetCursor 3 0) ;;
    before <- gets beforeEyes ;;
    let df := int_abs (wrap16 (fst (fst before) - current0)) in
    emit (LcdPrintInt df) ;;
    (if df <=? frontTh then rescueManeuver current0 df else ret tt) ;;
    now' <- millis ;;
    modify (set_nonce now') ;;
    modify (set_beforeEyes (current0, current1, current2))
  else ret tt.

(** ** Vocabulary of the statements

    Closed forms of what one sampling batch reads and leaves behind; the
    lemmas below connect them to the monadic code. *)

(** The value [random(3,6)] returns at the current random cursor. *)
Definition batchCount (w : World) : Z :=
  Z.of_N (randomTape (env w) (randomPos (pos w))) mod 3 + 3.

(** The raw pings a batch on sensor [s] reads, in order. *)
Definition batchReadings (s : Sensor) (w : World) : list Z :=
  map (fun i => Z.of_N (tape s (env w) i))
      (seq (cursor s (pos w)) (Z.to_nat (batchCount w))).

(** The [int] accumulation of the loop. *)
Definition int_sum (l : list Z) (sum : Z) : Z :=
  fold_left (fun acc p => wrap16 (acc + p)) l sum.

(** The [sum/count] a batch computes. *)
Definition batchQuotient (s : Sensor) (w : World) : Z :=
  Z.quot (int_sum (batchReadings s w) 0) (batchCount w).

(** The truncating integer mean of a list of readings. *)
Definition mean (l : list Z) : Z :=
  Z.quot (fold_right Z.add 0 l) (Z.of_nat (List.length l)).

(** A ping that five-fold still fits an [int]; every reading up to
    [MAX_DISTANCE] is one. *)
Definition ping_ok (p : Z) : Prop := 0 <= p /\ 5 * p <= INT_MAX.

Definition tape_ok (s : Sensor) (w : World) : Prop :=
  forall i, ping_ok (Z.of_N (tape s (env w) i)).

(** The world a batch on [s] leaves: one random value and [batchCount]
    pings consumed, one [delay(5)] per ping. *)
Definition afterBatch (s : Sensor) (w : World) : World :=
  let n := Z.to_nat (batchCount w) in
  set_trace (trace w ++ repeat (Delay 5) n)
            (set_pos (Nat.iter n (advance s) (advanceRandom (pos w))) w).

(** The world after one batch of the front sensor stored its quotient. *)
Definition frontSampled (w : World) : World :=
  let w' := afterBatch frontSensor w in
  set_eyes (mkEyes (batchQuotient frontSensor w) (left (eyes w')) (right (eyes w'))) w'.

Definition leftMeasured (w : World) : World :=
  let w' := afterBatch leftSensor w in
  set_eyes (mkEyes (front (eyes w')) (batchQuotient leftSensor w) (right (eyes w'))) w'.

Definition rightMeasured (w : World) : World :=
  let w' := afterBatch rightSensor w in
  set_eyes (mkEyes (front (eyes w')) (left (eyes w')) (batchQuotient rightSensor w)) w'.

(** The motor commands of a trace, without delays and display output. *)
Definition isMotorCmd (e : Event) : bool :=
  match e with
  | SetSpeed _ _ | Run _ _ => true
  | _ => false
  end.

Definition motorCmds (t : list Event) : list Event := filter isMotorCmd t.

(** The world right after a call of [millis()], and what the call read. *)
Definition tick (w : World) : World := set_pos (advanceMillis (pos w)) w.

Definition clockNow (w : World) : Z :=
  wrap32 (Z.of_N (millisTape (env w) (millisPos (pos w)))).

(** [millis() - nonce] at the entry of [rescueMission]. *)
Definition elapsed (w : World) : Z := wrap32 (clockNow w - nonce w).

(** [df] of [rescueMission] for a previous and a current front distance. *)
Definition frontDelta (previous current : Z) : Z :=
  int_abs (wrap16 (previous - current)).

(** What a step that only samples sensors and writes to the display
    leaves alone: the tapes, the clock cursor, the car, the monitor's state
    and the motor commands sent so far. *)
Definition sensing (w w' : World) : Prop :=
  env w' = env w /\
  millisPos (pos w') = millisPos (pos w) /\
  debugMode w' = debugMode w /\
  car w' = car w /\
  nonce w' = nonce w /\
  beforeEyes w' = beforeEyes w /\
  longVision w' = longVision w /\
  motorCmds (trace w') = motorCmds (trace w).

(** Motor commands of the methods of [Car], delays left out. *)
Definition driveCmds (speed : Z) : list Event :=
  [SetSpeed leftMotor speed; SetSpeed rightMotor speed;
   Run leftMotor FORWARD; Run rightMotor FORWARD].

Definition reverseCmds : list Event :=
  [Run leftMotor BACKWARD; Run rightMotor BACKWARD].

Definition neutralCmds : list Event :=
  [Run leftMotor RELEASE; Run rightMotor RELEASE].

Definition leftUTurnCmds (top : Z) : list Event :=
  neutralCmds ++
  [SetSpeed leftMotor top; SetSpeed rightMotor top;
   Run leftMotor BACKWARD; Run rightMotor FORWARD] ++
  neutralCmds.

Definition rightUTurnCmds (top : Z) : list Event :=
  neutralCmds ++
  [SetSpeed leftMotor top; SetSpeed rightMotor top;
   Run leftMotor FORWARD; Run rightMotor BACKWARD] ++
  neutralCmds.


(** The world [changeGear] leaves when it selected [speed]. *)
Definition driving (speed : Z) (w : World) : World :=
  set_trace (trace w ++ driveCmds speed)
            (set_car (mkCar speed (maxSpeed (car w)) (minSpeed (car w))) w).

(** The events of the two U-turns, delays included. *)
Definition leftUTurnTrace (top : Z) : list Event :=
  [Run leftMotor RELEASE; Run rightMotor RELEASE;
   SetSpeed leftMotor top; SetSpeed rightMotor top;
   Run leftMotor BACKWARD; Run rightMotor FORWARD; Delay 1250;
   Run leftMotor RELEASE; Run rightMotor RELEASE; Delay 1000].

Definition rightUTurnTrace (top : Z) : list Event :=
  [Run leftMotor RELEASE; Run rightMotor RELEASE;
   SetSpeed leftMotor top; SetSpeed rightMotor top;
   Run leftMotor FORWARD; Run rightMotor BACKWARD; Delay 1250;
   Run leftMotor RELEASE; Run rightMotor RELEASE; Delay 1000].

(** A world with further events on its trace. *)
Definition logged (t : list Event) (w : World) : World :=
  set_trace (trace w ++ t) w.

(** What [rescueMission] writes to the display before it decides. *)
Definition thresholdDisplay (df : Z) : list Event :=
  [LcdSetCursor 0 0; LcdPrint "                "; LcdSetCursor 0 0;
   LcdPrint "TH="; LcdSetCursor 3 0; LcdPrintInt df].

(** The motor commands of the recovery of [rescueMission]: gear 1,
    reverse, and the U-turn toward the larger of the side distances [l]
    and [r] (to the right on a tie), turning at speed [top]. *)
Definition recoveryCmds (top l r : Z) : list Event :=
  driveCmds 125 ++ reverseCmds ++
  (if l >? r then leftUTurnCmds top else rightUTurnCmds top).

(** A firing of the monitor that only counts: the stagnation counter goes
    up by one and no motor command is sent. *)
Definition onlyCounts (w w' : World) : Prop :=
  longVision w' = longVision w + 1 /\
  motorCmds (trace w') = motorCmds (trace w) /\
  car w' = car w.

(** A firing of the monitor that recovers, [w1] being the world in which
    the front measurement of the firing returned: the motor commands of
    the recovery are sent, the U-turn being chosen by a left and a right
    batch sampled after the triple of the firing, and the counter is 0. *)
Definition recovers (w w1 w' : World) : Prop :=
  let w3 := rightMeasured (leftMeasured w1) in
  let l := batchQuotient leftSensor w3 in
  let r := batchQuotient rightSensor (leftMeasured w3) in
  longVision w' = 0 /\
  left (eyes w') = l /\ right (eyes w') = r /\
  motorCmds (trace w') =
  motorCmds (trace w) ++ recoveryCmds (to_uint8 (maxSpeed (car w))) l r.

(** ** Example worlds *)

(** Tapes of a car standing still: each sensor repeats one reading, the
    random generator answers [0] (so every batch takes three pings) and
    the clock advances by 6000 between two readings. *)
Definition steadyEnv (f l r : N) : Env :=
  mkEnv (fun _ => f) (fun _ => l) (fun _ => r) (fun _ => 0%N)
        (fun i => (6000 * N.of_nat (S i))%N).

(** The globals as the declarations of the sketch initialise them, with
    [debugMode] as [setup()] leaves it, a given baseline and counter. *)
Definition worldOf (e : Env) (before : Z * Z * Z) (counter : Z) : World :=
  mkWorld e (mkCursors 0 0 0 0 0) [] 1 (mkCar 150 250 125) (mkEyes 0 0 0)
          0 before counter 0.

(** Tapes with an echo dropout: the front sensor answers 0 on its first
    three pings and 20 afterwards; the sides answer 0 throughout. *)
Definition dropoutEnv : Env :=
  mkEnv (fun i => if (i <? 3)%nat then 0%N else 20%N)
        (fun _ => 0%N) (fun _ => 0%N) (fun _ => 0%N)
        (fun i => (6000 * N.of_nat (S i))%N).

(** ** class Car, the remaining methods *)

Definition setOptimalSpeed : M unit :=
  optimal <- gets (fun w => averageSpeed (car w)) ;;
  setSpeed leftMotor optimal ;;
  setSpeed rightMotor optimal.

(** The loop of [brake]:
    [for (int i = averageSpeed; i >= 0; i -= 10) { drive(i); delay(1); }]
    entered with the current value of [i]. *)
Fixpoint brakeLoop (fuel : nat) (i : Z) : M unit :=
  match fuel with
  | O => diverge
  | S fuel' =>
      if i >=? 0 then
        drive i ;;
        delay 1 ;;
        brakeLoop fuel' (wrap16 (i - 10))
      else ret tt
  end.

Definition brake (fuel : nat) : M unit :=
  i <- gets (fun w => averageSpeed (car w)) ;;
  brakeLoop fuel i.

Definition leftLaneOvertake : M unit :=
  setSpeed leftMotor 0 ;;
  setSpeed rightMotor 200 ;;
  run leftMotor BACKWARD ;;
  run rightMotor FORWARD ;;
  delay 250 ;;
  setSpeed rightMotor 0 ;;
  setSpeed leftMotor 200 ;;
  delay 250 ;;
  setOptimalSpeed ;;
  changeGear 3.

Definition rightLaneOvertake : M unit :=
  setSpeed leftMotor 200 ;;
  setSpeed rightMotor 0 ;;
  run leftMotor FORWARD ;;
  run rightMotor BACKWARD ;;
  delay 250 ;;
  setSpeed rightMotor 200 ;;
  setSpeed leftMotor 0 ;;
  delay 250 ;;
  setOptimalSpeed ;;
  changeGear 3.

(** ** The dispatch of the main loop *)

(** The inner [switch(eyes.seekAlternateRoute())] of [loop()]. *)
Definition bypass (route : Z) : M unit :=
  if route =? CLEAR_PATH_LEFT then
    changeGear 1 ;;
    reverse ;;
    delay 500 ;;
    leftTurn ;;
    changeGear 1 ;;
    delay 250
  else if route =? CLEAR_PATH_RIGHT then
    changeGear 1 ;;
    reverse ;;
    delay 500 ;;
    rightTurn ;;
    changeGear 1 ;;
    delay 250
  else changeGear 1.

(** The second [switch(commonSense)] of [loop()], which drives the car for
    the situation [sense]. *)
Definition act (fuel : nat) (sense : Z) : M unit :=
  if sense =? CLEAR_PATH_AHEAD then
    gear <- suggestGear fuel ;;
    changeGear gear
  else if sense =? PATH_CLOSING_UP then
    changeGear 1
  else if sense =? SEEK_ALTERNATE_ROUTE then
    neutral ;;
    delay 500 ;;
    route <- seekAlternateRoute fuel ;;
    bypass route
  else if sense =? NARROW_ROAD_LEFT_RIGHT then
    neutral ;;
    reverse ;;
    delay 750 ;;
    leftUTurn
  else if sense =? CLEAR_PATH_LEFT then
    changeGear 1 ;;
    reverse ;;
    delay 250 ;;
    leftTurn
  else if sense =? CLEAR_PATH_RIGHT then
    changeGear 1 ;;
    reverse ;;
    delay 250 ;;
    rightTurn
  else
    neutral ;;
    delay 100 ;;
    rightUTurn ;;
    delay 200.

(** ** Vocabulary of the further statements *)

(** What a motor of the shield holds: the speed last set and the
    direction last run. *)
Record MotorState : Type := mkMotorState {
  speedOf : Z;
  directionOf : Direction
}.

(** The left and the right motor. *)
Definition Motors : Type := (MotorState * MotorState)%type.

Definition stepMotors (st : Motors) (e : Event) : Motors :=
  match e with
  | SetSpeed leftMotor s => (mkMotorState s (directionOf (fst st)), snd st)
  | SetSpeed rightMotor s => (fst st, mkMotorState s (directionOf (snd st)))
  | Run leftMotor d => (mkMotorState (speedOf (fst st)) d, snd st)
  | Run rightMotor d => (fst st, mkMotorState (speedOf (snd st)) d)
  | _ => st
  end.

(** The motors after the events of a trace, from the state [st]. *)
Definition motorsAfter (st : Motors) (t : list Event) : Motors :=
  fold_left stepMotors t st.

Definition both (speed : Z) (d : Direction) : Motors :=
  (mkMotorState speed d, mkMotorState speed d).

(** The waits of a trace, each with the state of the motors during it. *)
Fixpoint phases (st : Motors) (t : list Event) : list (Z * Motors) :=
  match t with
  | [] => []
  | Delay ms :: t' => (ms, st) :: phases st t'
  | e :: t' => phases (stepMotors st e) t'
  end.

(** The time a trace spends in [delay]. *)
Fixpoint totalDelay (t : list Event) : Z :=
  match t with
  | [] => 0
  | Delay ms :: t' => ms + totalDelay t'
  | _ :: t' => totalDelay t'
  end.

(** A trace with the directions forward and backward exchanged. *)
Definition mirrorDirection (d : Direction) : Direction :=
  match d with
  | FORWARD => BACKWARD
  | BACKWARD => FORWARD
  | RELEASE => RELEASE
  end.

Definition mirror (e : Event) : Event :=
  match e with
  | Run m d => Run m (mirrorDirection d)
  | _ => e
  end.

(** The events of the two quarter turns, delays included. *)
Definition leftTurnTrace (top : Z) : list Event :=
  [Run leftMotor RELEASE; Run rightMotor RELEASE;
   SetSpeed leftMotor top; SetSpeed rightMotor top;
   Run leftMotor BACKWARD; Run rightMotor FORWARD; Delay 500;
   Run leftMotor RELEASE; Run rightMotor RELEASE; Delay 500].

Definition rightTurnTrace (top : Z) : list Event :=
  [Run leftMotor RELEASE; Run rightMotor RELEASE;
   SetSpeed leftMotor top; SetSpeed rightMotor top;
   Run leftMotor FORWARD; Run rightMotor BACKWARD; Delay 500;
   Run leftMotor RELEASE; Run rightMotor RELEASE; Delay 500].

(** The speeds [brake] steps through from [i]: [i], [i - 10], ... down to
    the last one that is not negative. *)
Fixpoint brakeSpeeds (n : nat) (i : Z) : list Z :=
  match n with
  | O => []
  | S n' => i :: brakeSpeeds n' (i - 10)
  end.

(** The trace of one braking step at speed [i]. *)
Definition brakeStep (i : Z) : list Event := driveCmds i ++ [Delay 1].

(** The six situations the dispatch of [loop()] has a case for. *)
Definition handled : list Z :=
  [CLEAR_PATH_AHEAD; PATH_CLOSING_UP; SEEK_ALTERNATE_ROUTE;
   NARROW_ROAD_LEFT_RIGHT; CLEAR_PATH_LEFT; CLEAR_PATH_RIGHT].

(** The events of the [default] case of the dispatch. *)
Definition defaultTrace (top : Z) : list Event :=
  neutralCmds ++ [Delay 100] ++ rightUTurnTrace top ++ [Delay 200].

(** Tapes of a front sensor that never hears an echo. *)
Definition deafEnv : Env :=
  mkEnv (fun _ => 0%N) (fun _ => 30%N) (fun _ => 30%N) (fun _ => 0%N)
        (fun i => (6000 * N.of_nat (S i))%N).

(** * Properties *)

(** ** The monad *)

Lemma bind_Some {A B : Type} (m : M A) (f : A -> M B) w b w' :
  bind m f w = Some (b, w') <->
  exists a w1, m w = Some (a, w1) /\ f a w1 = Some (b, w').
Proof.
  unfold bind. split.
  - destruct (m w) as [[a w1]|] eqn:E; [|discriminate].
    intros H. exists a, w1. split; [reflexivity | exact H].
  - intros (a & w1 & -> & H). exact H.
Qed.

Lemma bind_eq {A B : Type} (m : M A) (f : A -> M B) w a w1 :
  m w = Some (a, w1) -> bind m f w = f a w1.
Proof. unfold bind. intros ->. reflexivity. Qed.

(** ** Machine integers *)

Lemma wrap16_small z : -32768 <= z <= 32767 -> wrap16 z = z.
Proof.
  intros H. unfold wrap16. rewrite Z.mod_small; lia.
Qed.

Lemma batchCount_range w : 3 <= batchCount w <= 5.
Proof.
  unfold batchCount.
  pose proof (Z.mod_pos_bound (Z.of_N (randomTape (env w) (randomPos (pos w)))) 3).
  lia.
Qed.

Lemma random_3_6 w :
  random 3 6 w = Some (batchCount w, set_pos (advanceRandom (pos w)) w).
Proof. reflexivity. Qed.

Lemma batchReadings_length s w :
  Z.of_nat (List.length (batchReadings s w)) = batchCount w.
Proof.
  unfold batchReadings. rewrite length_map, length_seq.
  pose proof (batchCount_range w). lia.
Qed.

(** ** Sampling *)

Lemma cursor_advance s p : cursor s (advance s p) = S (cursor s p).
Proof. destruct s; reflexivity. Qed.

Lemma iter_advance_comm s n p :
  Nat.iter n (advance s) (advance s p) = advance s (Nat.iter n (advance s) p).
Proof.
  induction n as [|n IH]; simpl; [reflexivity | now rewrite IH].
Qed.

Lemma pingLoop_spec s n : forall sum w,
  pingLoop s n sum w =
  Some (int_sum (map (fun i => Z.of_N (tape s (env w) i))
                     (seq (cursor s (pos w)) n)) sum,
        set_trace (trace w ++ repeat (Delay 5) n)
                  (set_pos (Nat.iter n (advance s) (pos w)) w)).
Proof.
  induction n as [|n IH]; intros sum w.
  - destruct w. unfold set_trace, set_pos. simpl.
    rewrite app_nil_r. reflexivity.
  - cbn [pingLoop]. unfold bind at 1. unfold ping_cm at 1.
    unfold bind at 1. unfold delay, emit, modify.
    rewrite IH. destruct w as [e p t d c ey no be lv ps].
    unfold set_trace, set_pos. cbn [env pos trace debugMode car eyes nonce
      beforeEyes longVision previousSense].
    rewrite cursor_advance, iter_advance_comm, <- app_assoc.
    reflexivity.
Qed.

Lemma sampleBatch_spec s w :
  sampleBatch s w = Some (batchQuotient s w, afterBatch s w).
Proof.
  unfold sampleBatch. rewrite (bind_eq _ _ _ _ _ (random_3_6 w)).
  pose proof (batchCount_range w) as Hc.
  rewrite (wrap16_small (batchCount w)) by lia.
  unfold bind. rewrite pingLoop_spec. unfold ret.
  destruct s; reflexivity.
Qed.

Lemma measureLeftDistance_spec w :
  measureLeftDistance w = Some (batchQuotient leftSensor w, leftMeasured w).
Proof.
  unfold measureLeftDistance.
  rewrite (bind_eq _ _ _ _ _ (sampleBatch_spec leftSensor w)).
  reflexivity.
Qed.

Lemma measureRightDistance_spec w :
  measureRightDistance w = Some (batchQuotient rightSensor w, rightMeasured w).
Proof.
  unfold measureRightDistance.
  rewrite (bind_eq _ _ _ _ _ (sampleBatch_spec rightSensor w)).
  reflexivity.
Qed.

(** One unfolding of the recursion of [measureFrontDistance]. *)
Lemma measureFrontDistance_step fuel w :
  measureFrontDistance (S fuel) w =
  if batchQuotient frontSensor w =? 0
  then measureFrontDistance fuel (frontSampled w)
  else Some (batchQuotient frontSensor w, frontSampled w).
Proof.
  cbn [measureFrontDistance].
  rewrite (bind_eq _ _ _ _ _ (sampleBatch_spec frontSensor w)).
  unfold bind, set_front, modify, gets. cbn [front eyes set_eyes].
  fold (frontSampled w).
  destruct (batchQuotient frontSensor w =? 0); reflexivity.
Qed.

Lemma int_sum_exact l : forall sum,
  Forall (fun p => 0 <= p) l ->
  0 <= sum -> sum + fold_right Z.add 0 l <= INT_MAX ->
  int_sum l sum = sum + fold_right Z.add 0 l.
Proof.
  unfold INT_MAX.
  induction l as [|p l IH]; intros sum Hl Hs Hb; simpl in *.
  - lia.
  - inversion Hl as [|? ? Hp Hl']; subst.
    assert (0 <= fold_right Z.add 0 l).
    { clear -Hl'. induction Hl'; simpl; lia. }
    unfold int_sum in *. rewrite wrap16_small by lia.
    rewrite IH; [lia | assumption | lia | lia].
Qed.

Lemma ping_ok_sum l :
  Forall ping_ok l ->
  0 <= fold_right Z.add 0 l /\
  5 * fold_right Z.add 0 l <= Z.of_nat (List.length l) * INT_MAX.
Proof.
  unfold ping_ok, INT_MAX.
  induction 1 as [|p l [Hp0 Hp] _ [IH0 IH]]; simpl List.length; simpl fold_right.
  - lia.
  - rewrite Nat2Z.inj_succ. lia.
Qed.

Lemma batchReadings_ok s w : tape_ok s w -> Forall ping_ok (batchReadings s w).
Proof.
  intros H. unfold batchReadings. apply Forall_map, Forall_forall.
  intros i _. apply H.
Qed.

(** Within the sensor's range the loop does not overflow: the quotient of
    a batch is the truncating mean of its readings. *)
Lemma batchQuotient_mean s w :
  tape_ok s w -> batchQuotient s w = mean (batchReadings s w).
Proof.
  intros H. apply batchReadings_ok in H.
  unfold batchQuotient, mean. rewrite batchReadings_length.
  destruct (ping_ok_sum _ H) as [H0 H5].
  rewrite batchReadings_length in H5.
  pose proof (batchCount_range w).
  rewrite int_sum_exact; [reflexivity | | lia | unfold INT_MAX in *; nia].
  eapply Forall_impl; [|exact H]. unfold ping_ok. intros; lia.
Qed.

(** ** Frames *)

Lemma sensing_trans w1 w2 w3 : sensing w1 w2 -> sensing w2 w3 -> sensing w1 w3.
Proof.
  unfold sensing. intros H1 H2.
  decompose [and] H1. decompose [and] H2.
  repeat split; congruence.
Qed.

Lemma millisPos_iter_advance s n p :
  millisPos (Nat.iter n (advance s) p) = millisPos p.
Proof.
  induction n as [|n IH]; simpl; [reflexivity|].
  rewrite <- IH. destruct s; reflexivity.
Qed.

Lemma motorCmds_app t1 t2 : motorCmds (t1 ++ t2) = motorCmds t1 ++ motorCmds t2.
Proof. apply filter_app. Qed.

Lemma motorCmds_delays ms n : motorCmds (repeat (Delay ms) n) = [].
Proof. induction n as [|n IH]; simpl; [reflexivity | exact IH]. Qed.

Lemma afterBatch_sensing s w : sensing w (afterBatch s w).
Proof.
  unfold sensing, afterBatch, set_trace, set_pos.
  cbn [env pos trace debugMode car eyes nonce beforeEyes longVision].
  rewrite millisPos_iter_advance, motorCmds_app, motorCmds_delays, app_nil_r.
  repeat split; reflexivity.
Qed.

Lemma set_eyes_sensing e w : sensing w (set_eyes e w).
Proof. unfold sensing. repeat split; reflexivity. Qed.

Lemma frontSampled_sensing w : sensing w (frontSampled w).
Proof.
  unfold frontSampled. cbv zeta.
  eapply sensing_trans; [apply (afterBatch_sensing frontSensor) | apply set_eyes_sensing].
Qed.

Lemma leftMeasured_sensing w : sensing w (leftMeasured w).
Proof.
  unfold leftMeasured. cbv zeta.
  eapply sensing_trans; [apply (afterBatch_sensing leftSensor) | apply set_eyes_sensing].
Qed.

Lemma rightMeasured_sensing w : sensing w (rightMeasured w).
Proof.
  unfold rightMeasured. cbv zeta.
  eapply sensing_trans; [apply (afterBatch_sensing rightSensor) | apply set_eyes_sensing].
Qed.

Lemma measureFrontDistance_sensing fuel : forall w v w',
  measureFrontDistance fuel w = Some (v, w') -> sensing w w'.
Proof.
  induction fuel as [|fuel IH]; intros w v w' H.
  - discriminate.
  - rewrite measureFrontDistance_step in H.
    destruct (batchQuotient frontSensor w =? 0).
    + eapply sensing_trans; [apply frontSampled_sensing | eapply IH; eassumption].
    + injection H as _ <-. apply frontSampled_sensing.
Qed.

(** Every reading a sensor constructed with [MAX_DISTANCE] can give is in
    range. *)
Lemma ping_ok_MAX_DISTANCE p : 0 <= p <= MAX_DISTANCE + 1 -> ping_ok p.
Proof. unfold ping_ok, MAX_DISTANCE, INT_MAX. lia. Qed.

(** ** The front measurement *)

Lemma measureFrontDistance_result fuel : forall w v w',
  measureFrontDistance fuel w = Some (v, w') -> v <> 0 /\ front (eyes w') = v.
Proof.
  induction fuel as [|fuel IH]; intros w v w' H.
  - discriminate.
  - rewrite measureFrontDistance_step in H.
    destruct (batchQuotient frontSensor w =? 0) eqn:E.
    + eapply IH; eassumption.
    + injection H as <- <-. apply Z.eqb_neq in E.
      split; [exact E | reflexivity].
Qed.

(** ** The classifiers *)

Lemma openEyesWide_eyes fuel w v w1 :
  measureFrontDistance fuel w = Some (v, w1) ->
  exists w', openEyesWide fuel w = Some (tt, w') /\
             eyes w' = mkEyes v (batchQuotient leftSensor w1)
                              (batchQuotient rightSensor (leftMeasured w1)).
Proof.
  intros H. unfold openEyesWide.
  rewrite (bind_eq _ _ _ _ _ H).
  rewrite (bind_eq _ _ _ _ _ (measureLeftDistance_spec w1)).
  rewrite (bind_eq _ _ _ _ _ (measureRightDistance_spec (leftMeasured w1))).
  destruct (measureFrontDistance_result _ _ _ _ H) as [_ Hf].
  unfold bind at 1. unfold gets at 1.
  destruct (debugMode (rightMeasured (leftMeasured w1)) =? 0).
  - eexists. split; [reflexivity|].
    cbn. rewrite Hf. reflexivity.
  - eexists. split; [reflexivity|].
    cbn. rewrite Hf. reflexivity.
Qed.

Lemma commonSense_runs fuel w v w1 :
  measureFrontDistance fuel w = Some (v, w1) ->
  exists w', commonSense fuel w = Some (commonSense_decide (eyes w'), w') /\
             eyes w' = mkEyes v (batchQuotient leftSensor w1)
                              (batchQuotient rightSensor (leftMeasured w1)).
Proof.
  intros H. destruct (openEyesWide_eyes _ _ _ _ H) as (w' & Ho & He).
  exists w'. split; [|exact He].
  unfold commonSense. rewrite (bind_eq _ _ _ _ _ Ho). reflexivity.
Qed.


Lemma seekAlternateRoute_runs fuel w v w1 :
  measureFrontDistance fuel w = Some (v, w1) ->
  exists w', seekAlternateRoute fuel w =
               Some (seekAlternateRoute_decide (eyes w'), w') /\
             eyes w' = mkEyes v (batchQuotient leftSensor w1)
                              (batchQuotient rightSensor (leftMeasured w1)).
Proof.
  intros H. destruct (openEyesWide_eyes _ _ _ _ H) as (w' & Ho & He).
  exists w'. split; [|exact He].
  unfold seekAlternateRoute. rewrite (bind_eq _ _ _ _ _ Ho). reflexivity.
Qed.


Ltac decide_cases :=
  repeat match goal with
         | |- context [?a >? ?b] => destruct (Z.gtb_spec a b)
         | |- context [?a <? ?b] => destruct (Z.ltb_spec a b)
         | |- context [?a >=? ?b] => destruct (Z.geb_spec a b)
         | |- context [?a <=? ?b] => destruct (Z.leb_spec a b)
         | |- context [?a =? ?b] => destruct (Z.eqb_spec a b)
         end;
  cbn [andb orb]; try reflexivity; try discriminate; try lia.

(** C1. For every sensor triple (f, l, r) the decision of
    [Eyes::commonSense] follows the six rules of the design: f > 50 gives
    ClearAhead, 40 < f <= 50 SeekAlternate, 30 < f <= 40 PathClosing, and
    with f <= 30: l < 8 and r < 8 give NarrowCorridor, l >= 8 and l > r
    ClearLeft, r >= 8 and r > l ClearRight.  The boundary and scenario
    values of the design follow (51, 50, (60,5,5), (25,5,5), (25,15,5)), and
    [commonSense] returns this decision on the triple it has just sampled
    whenever its front measurement returns. *)
Theorem commonSense_rules :
  (forall f l r,
      let s := commonSense_decide (mkEyes f l r) in
      (50 < f -> s = Some CLEAR_PATH_AHEAD) /\
      (40 < f <= 50 -> s = Some SEEK_ALTERNATE_ROUTE) /\
      (30 < f <= 40 -> s = Some PATH_CLOSING_UP) /\
      (f <= 30 -> l < 8 -> r < 8 -> s = Some NARROW_ROAD_LEFT_RIGHT) /\
      (f <= 30 -> 8 <= l -> r < l -> s = Some CLEAR_PATH_LEFT) /\
      (f <= 30 -> 8 <= r -> l < r -> s = Some CLEAR_PATH_RIGHT)) /\
  (forall l r, commonSense_decide (mkEyes 51 l r) = Some CLEAR_PATH_AHEAD) /\
  (forall l r, commonSense_decide (mkEyes 50 l r) = Some SEEK_ALTERNATE_ROUTE) /\
  commonSense_decide (mkEyes 60 5 5) = Some CLEAR_PATH_AHEAD /\
  commonSense_decide (mkEyes 25 5 5) = Some NARROW_ROAD_LEFT_RIGHT /\
  commonSense_decide (mkEyes 25 15 5) = Some CLEAR_PATH_LEFT /\
  (forall fuel w v w1,
      measureFrontDistance fuel w = Some (v, w1) ->
      exists w',
        commonSense fuel w = Some (commonSense_decide (eyes w'), w') /\
        eyes w' = mkEyes v (batchQuotient leftSensor w1)
                         (batchQuotient rightSensor (leftMeasured w1))).
Proof.
  split; [|repeat split; try reflexivity; apply commonSense_runs].
  intros f l r s. subst s. unfold commonSense_decide. cbn [front left right].
  repeat split; intros; decide_cases.
Qed.

Lemma commonSense_rules_witness :
  exists w',
    commonSense 1 (worldOf (steadyEnv 25 15 5) (0, 0, 0) 0) =
    Some (Some CLEAR_PATH_LEFT, w').
Proof.
  destruct commonSense_rules as (_ & _ & _ & _ & _ & _ & Hrun).
  destruct (Hrun 1%nat (worldOf (steadyEnv 25 15 5) (0, 0, 0) 0) 25
                 (frontSampled (worldOf (steadyEnv 25 15 5) (0, 0, 0) 0)))
    as (w' & Hc & He).
  - reflexivity.
  - exists w'. rewrite Hc, He. reflexivity.
Defined.

(** The decision reaches the end of [commonSense] without a [return]
    exactly on a tie of the sides at 8 or more with the front at most 30. *)
Lemma commonSense_decide_None e :
  commonSense_decide e = None <->
  front e <= 30 /\ left e = right e /\ 8 <= left e.
Proof.
  unfold commonSense_decide. split.
  - decide_cases.
  - intros (Hf & Hlr & Hl). rewrite <- Hlr. decide_cases.
Qed.

(** C2 (the code departs from it). With front 25 and both sides 10 no
    [return] of [Eyes::commonSense] is reached: the decision is undefined,
    as it is on every tie of the sides at 8 or more with the front at most
    30, and a run of [commonSense] on such readings ends without a
    situation. *)
Theorem commonSense_falls_through :
  commonSense_decide (mkEyes 25 10 10) = None /\
  (forall e, commonSense_decide e = None <->
             front e <= 30 /\ left e = right e /\ 8 <= left e) /\
  option_map fst (commonSense 1 (worldOf (steadyEnv 25 10 10) (0, 0, 0) 0))
  = Some None.
Proof.
  split; [reflexivity|]. split; [apply commonSense_decide_None|].
  vm_compute. reflexivity.
Qed.

Lemma suggestGear_gearFor fuel w :
  suggestGear fuel w =
  option_map (fun r => (gearFor (fst r), snd r)) (measureFrontDistance fuel w).
Proof.
  unfold suggestGear, bind, ret.
  destruct (measureFrontDistance fuel w) as [[d w']|]; reflexivity.
Qed.

(** C5. [Eyes::suggestGear] maps the measured front distance d to a gear
    by thresholds: d >= 275 gives 4, 200 <= d < 275 gives 3,
    100 <= d < 200 gives 2, d < 100 gives 1; so 99, 100, 199, 200, 274,
    275 give 1, 2, 2, 3, 3, 4; and the mapping is monotonic
    non-decreasing in d. *)
Theorem suggestGear_thresholds :
  (forall fuel w,
      suggestGear fuel w =
      option_map (fun r => (gearFor (fst r), snd r))
                 (measureFrontDistance fuel w)) /\
  (forall d,
      (275 <= d -> gearFor d = 4) /\
      (200 <= d < 275 -> gearFor d = 3) /\
      (100 <= d < 200 -> gearFor d = 2) /\
      (d < 100 -> gearFor d = 1)) /\
  (gearFor 99 = 1 /\ gearFor 100 = 2 /\ gearFor 199 = 2 /\
   gearFor 200 = 3 /\ gearFor 274 = 3 /\ gearFor 275 = 4) /\
  (forall d1 d2, d1 <= d2 -> gearFor d1 <= gearFor d2).
Proof.
  split; [exact suggestGear_gearFor|].
  split; [|split; [repeat split; reflexivity|]].
  - intros d. unfold gearFor. repeat split; intros; decide_cases.
  - intros d1 d2 H. unfold gearFor. decide_cases.
Qed.

Lemma suggestGear_thresholds_witness :
  gearFor 150 <= gearFor 274 /\
  option_map fst (suggestGear 1 (worldOf (steadyEnv 274 0 0) (0, 0, 0) 0))
  = Some 3.
Proof.
  destruct suggestGear_thresholds as (Hrun & _ & _ & Hmono).
  split.
  - apply (Hmono 150 274). lia.
  - rewrite Hrun. reflexivity.
Defined.

(** C6. On the triple it has re-sampled, [Eyes::seekAlternateRoute]
    returns ClearLeft or ClearRight exactly when front <= 40 and
    (left > 80 or right > 80): ClearLeft when the left distance is the
    larger, ClearRight when the right is; in every other case it returns
    NarrowCorridor. *)
Theorem seekAlternateRoute_cases :
  (forall f l r,
      let s := seekAlternateRoute_decide (mkEyes f l r) in
      (f <= 40 /\ (80 < l \/ 80 < r) ->
       (s = CLEAR_PATH_LEFT \/ s = CLEAR_PATH_RIGHT) /\
       (r < l -> s = CLEAR_PATH_LEFT) /\
       (l < r -> s = CLEAR_PATH_RIGHT)) /\
      (~ (f <= 40 /\ (80 < l \/ 80 < r)) -> s = NARROW_ROAD_LEFT_RIGHT) /\
      (s = CLEAR_PATH_LEFT \/ s = CLEAR_PATH_RIGHT <->
       f <= 40 /\ (80 < l \/ 80 < r))) /\
  (forall fuel w v w1,
      measureFrontDistance fuel w = Some (v, w1) ->
      exists w',
        seekAlternateRoute fuel w =
        Some (seekAlternateRoute_decide (eyes w'), w') /\
        eyes w' = mkEyes v (batchQuotient leftSensor w1)
                         (batchQuotient rightSensor (leftMeasured w1))).
Proof.
  split; [|apply seekAlternateRoute_runs].
  intros f l r s. subst s.
  unfold seekAlternateRoute_decide, CLEAR_PATH_LEFT, CLEAR_PATH_RIGHT,
    NARROW_ROAD_LEFT_RIGHT.
  cbn [front left right].
  destruct (Z.leb_spec f 40), (Z.gtb_spec l 80), (Z.gtb_spec r 80),
    (Z.gtb_spec l r); cbn [andb orb];
    (split; [intros [? [?|?]]; repeat split; intros; try lia; auto
            | split; [intros; try reflexivity; exfalso; lia
                     | split; [intros [?|?]; try discriminate; lia
                              | intros [? [?|?]]; try lia; auto]]]).
Qed.

Lemma seekAlternateRoute_cases_witness :
  seekAlternateRoute_decide (mkEyes 35 90 20) = CLEAR_PATH_LEFT /\
  seekAlternateRoute_decide (mkEyes 45 90 20) = NARROW_ROAD_LEFT_RIGHT /\
  exists w',
    seekAlternateRoute 1 (worldOf (steadyEnv 35 20 90) (0, 0, 0) 0) =
    Some (CLEAR_PATH_RIGHT, w').
Proof.
  destruct seekAlternateRoute_cases as (Hd & Hrun).
  split; [|split].
  - apply (Hd 35 90 20); lia.
  - apply (Hd 45 90 20); lia.
  - destruct (Hrun 1%nat (worldOf (steadyEnv 35 20 90) (0, 0, 0) 0) 35
                   (frontSampled (worldOf (steadyEnv 35 20 90) (0, 0, 0) 0)))
      as (w' & Hc & He).
    + reflexivity.
    + exists w'. rewrite Hc, He. reflexivity.
Defined.


(** ** Gears *)

Lemma gearSpeed_cases gear :
  gearSpeed gear = 125 \/ gearSpeed gear = 150 \/
  gearSpeed gear = 175 \/ gearSpeed gear = 200.
Proof.
  unfold gearSpeed.
  repeat match goal with
         | |- context [if ?b then _ else _] => destruct b
         end; tauto.
Qed.

Lemma changeGear_spec gear w :
  changeGear gear w = Some (tt, driving (gearSpeed gear) w).
Proof.
  unfold changeGear, set_averageSpeed, drive, setSpeed, run, emit, bind,
    modify, gets, driving, driveCmds, set_trace, set_car.
  cbn [env pos trace debugMode car eyes nonce beforeEyes longVision
       previousSense averageSpeed].
  assert (Hu : to_uint8 (gearSpeed gear) = gearSpeed gear).
  { destruct (gearSpeed_cases gear) as [H|[H|[H|H]]]; rewrite H; reflexivity. }
  rewrite Hu, <- !app_assoc. reflexivity.
Qed.

(** C10. [Car::changeGear] returns for every integer gear; it stores the
    speed of the gear (1 gives 125, 2 gives 150, 3 gives 175, 4 gives 200)
    and ends by setting both motors to that speed and running both
    forward; a gear outside 1..4 selects 125 and behaves as gear 1. *)
Theorem changeGear_total :
  forall gear w,
    changeGear gear w = Some (tt, driving (gearSpeed gear) w) /\
    averageSpeed (car (driving (gearSpeed gear) w)) = gearSpeed gear /\
    trace (driving (gearSpeed gear) w) =
    trace w ++ [SetSpeed leftMotor (gearSpeed gear);
                SetSpeed rightMotor (gearSpeed gear);
                Run leftMotor FORWARD; Run rightMotor FORWARD] /\
    gearSpeed 1 = 125 /\ gearSpeed 2 = 150 /\
    gearSpeed 3 = 175 /\ gearSpeed 4 = 200 /\
    (gear <> 1 -> gear <> 2 -> gear <> 3 -> gear <> 4 ->
     gearSpeed gear = 125 /\ changeGear gear w = changeGear 1 w).
Proof.
  intros gear w. split; [apply changeGear_spec|].
  repeat split; try reflexivity.
  - unfold gearSpeed.
    destruct (Z.eqb_spec gear 1), (Z.eqb_spec gear 2), (Z.eqb_spec gear 3),
      (Z.eqb_spec gear 4); try contradiction; reflexivity.
  - rewrite !changeGear_spec. do 2 f_equal.
    unfold gearSpeed.
    destruct (Z.eqb_spec gear 1), (Z.eqb_spec gear 2), (Z.eqb_spec gear 3),
      (Z.eqb_spec gear 4); try contradiction; reflexivity.
Qed.

Lemma changeGear_total_witness :
  gearSpeed 7 = 125 /\
  changeGear 7 (worldOf (steadyEnv 0 0 0) (0, 0, 0) 0) =
  changeGear 1 (worldOf (steadyEnv 0 0 0) (0, 0, 0) 0).
Proof.
  apply (changeGear_total 7 (worldOf (steadyEnv 0 0 0) (0, 0, 0) 0)); lia.
Defined.

(** ** Retries of the front measurement *)

(** Enough fuel: when the first [k] batches have quotient zero and the
    next one has not, the measurement returns that one. *)
Lemma measureFrontDistance_returns k : forall w fuel,
  (forall j, (j < k)%nat ->
             batchQuotient frontSensor (Nat.iter j frontSampled w) = 0) ->
  batchQuotient frontSensor (Nat.iter k frontSampled w) <> 0 ->
  (k < fuel)%nat ->
  measureFrontDistance fuel w =
  Some (batchQuotient frontSensor (Nat.iter k frontSampled w),
        Nat.iter (S k) frontSampled w).
Proof.
  induction k as [|k IH]; intros w fuel Hz Hnz Hf.
  - destruct fuel as [|fuel]; [lia|].
    rewrite measureFrontDistance_step.
    change (Nat.iter 0 frontSampled w) with w in *.
    apply Z.eqb_neq in Hnz. rewrite Hnz. reflexivity.
  - destruct fuel as [|fuel]; [lia|].
    rewrite measureFrontDistance_step.
    assert (H0 : batchQuotient frontSensor w = 0) by (apply (Hz 0%nat); lia).
    rewrite H0. cbn [Z.eqb]. rewrite Nat.iter_succ_r in Hnz.
    rewrite (Nat.iter_succ_r (S k) _ frontSampled w).
    rewrite (Nat.iter_succ_r k _ frontSampled w).
    apply IH; [|exact Hnz|lia].
    intros j Hj. rewrite <- Nat.iter_succ_r. apply Hz. lia.
Qed.

(** Conversely, a returned value is the quotient of the first batch whose
    quotient is not zero. *)
Lemma measureFrontDistance_first fuel : forall w v w',
  measureFrontDistance fuel w = Some (v, w') ->
  exists k, (k < fuel)%nat /\
    (forall j, (j < k)%nat ->
               batchQuotient frontSensor (Nat.iter j frontSampled w) = 0) /\
    v = batchQuotient frontSensor (Nat.iter k frontSampled w) /\
    w' = Nat.iter (S k) frontSampled w.
Proof.
  induction fuel as [|fuel IH]; intros w v w' H.
  - discriminate.
  - rewrite measureFrontDistance_step in H.
    destruct (batchQuotient frontSensor w =? 0) eqn:E.
    + apply IH in H. destruct H as (k & Hk & Hz & Hv & Hw).
      exists (S k).
      split; [lia|]. split; [|split].
      * intros [|j] Hj.
        -- apply Z.eqb_eq. exact E.
        -- rewrite Nat.iter_succ_r. apply Hz. lia.
      * rewrite (Nat.iter_succ_r k _ frontSampled w). exact Hv.
      * rewrite (Nat.iter_succ_r (S k) _ frontSampled w). exact Hw.
    + injection H as <- <-. exists 0%nat.
      split; [lia|]. split; [intros j Hj; lia|]. split; reflexivity.
Qed.

Lemma iter_frontSampled_env k w : env (Nat.iter k frontSampled w) = env w.
Proof.
  induction k as [|k IH]; [reflexivity|].
  change (Nat.iter (S k) frontSampled w)
    with (frontSampled (Nat.iter k frontSampled w)).
  rewrite <- IH. apply frontSampled_sensing.
Qed.

(** C3. [Eyes::measureFrontDistance] never returns 0: a returned value is
    not zero and is the value stored in [front]; a batch whose quotient
    (the truncating mean of its pings) is zero is thrown away and a new
    batch is sampled, and the value returned is the quotient of the first
    batch whose quotient is not zero, as soon as there is one. *)
Theorem measureFrontDistance_nonzero :
  (forall fuel w v w',
      measureFrontDistance fuel w = Some (v, w') ->
      v <> 0 /\ front (eyes w') = v /\
      exists k, (k < fuel)%nat /\
        (forall j, (j < k)%nat ->
           batchQuotient frontSensor (Nat.iter j frontSampled w) = 0) /\
        v = batchQuotient frontSensor (Nat.iter k frontSampled w)) /\
  (forall k w fuel,
      (forall j, (j < k)%nat ->
         batchQuotient frontSensor (Nat.iter j frontSampled w) = 0) ->
      batchQuotient frontSensor (Nat.iter k frontSampled w) <> 0 ->
      (k < fuel)%nat ->
      measureFrontDistance fuel w =
      Some (batchQuotient frontSensor (Nat.iter k frontSampled w),
            Nat.iter (S k) frontSampled w)) /\
  (forall k w,
      tape_ok frontSensor w ->
      batchQuotient frontSensor (Nat.iter k frontSampled w) =
      mean (batchReadings frontSensor (Nat.iter k frontSampled w))).
Proof.
  split; [|split].
  - intros fuel w v w' H.
    destruct (measureFrontDistance_result _ _ _ _ H) as [Hv Hf].
    destruct (measureFrontDistance_first _ _ _ _ H) as (k & Hk & Hz & Hq & _).
    split; [exact Hv|]. split; [exact Hf|].
    exists k. auto.
  - intros k w fuel. apply measureFrontDistance_returns.
  - intros k w Hok. apply batchQuotient_mean.
    unfold tape_ok. rewrite iter_frontSampled_env. exact Hok.
Qed.

Lemma measureFrontDistance_nonzero_witness :
  measureFrontDistance 2 (worldOf dropoutEnv (0, 0, 0) 0) =
  Some (20, Nat.iter 2 frontSampled (worldOf dropoutEnv (0, 0, 0) 0)) /\
  20 <> 0 /\
  batchQuotient frontSensor (worldOf dropoutEnv (0, 0, 0) 0) =
  mean [0; 0; 0].
Proof.
  destruct measureFrontDistance_nonzero as (Hsafe & Hlive & Hmean).
  assert (Hrun : measureFrontDistance 2 (worldOf dropoutEnv (0, 0, 0) 0) =
                 Some (20, Nat.iter 2 frontSampled (worldOf dropoutEnv (0, 0, 0) 0))).
  { apply (Hlive 1%nat (worldOf dropoutEnv (0, 0, 0) 0) 2%nat).
    - intros j Hj. assert (j = 0%nat) as -> by lia. reflexivity.
    - vm_compute. discriminate.
    - lia. }
  split; [exact Hrun|]. split.
  - apply (Hsafe _ _ _ _ Hrun).
  - apply (Hmean 0%nat (worldOf dropoutEnv (0, 0, 0) 0)).
    intros i. unfold ping_ok, INT_MAX, tape, worldOf, dropoutEnv.
    cbn [env frontTape]. destruct (i <? 3)%nat; cbn; lia.
Defined.

(** ** Batches without echo *)

Lemma measureFrontDistance_starves fuel : forall w,
  (forall j, (j < fuel)%nat ->
             batchQuotient frontSensor (Nat.iter j frontSampled w) = 0) ->
  measureFrontDistance fuel w = None.
Proof.
  induction fuel as [|fuel IH]; intros w Hz.
  - reflexivity.
  - rewrite measureFrontDistance_step.
    assert (H0 : batchQuotient frontSensor w = 0) by (apply (Hz 0%nat); lia).
    rewrite H0. cbn [Z.eqb]. apply IH.
    intros j Hj. rewrite <- Nat.iter_succ_r. apply Hz. lia.
Qed.

Lemma int_sum_zeros l :
  Forall (fun p => p = 0) l -> int_sum l 0 = 0.
Proof.
  unfold int_sum. induction 1 as [|p l Hp _ IH]; [reflexivity|].
  subst p. cbn [fold_left]. exact IH.
Qed.

Lemma batchQuotient_silent s w :
  (forall i, tape s (env w) i = 0%N) -> batchQuotient s w = 0.
Proof.
  intros H. unfold batchQuotient. rewrite int_sum_zeros.
  - apply Z.quot_0_l. pose proof (batchCount_range w). lia.
  - unfold batchReadings. apply Forall_map, Forall_forall.
    intros i _. rewrite H. reflexivity.
Qed.

Lemma iter_advance_front n p :
  Nat.iter n (advance frontSensor) p =
  mkCursors (n + frontPos p) (leftPos p) (rightPos p) (randomPos p) (millisPos p).
Proof.
  induction n as [|n IH].
  - destruct p; reflexivity.
  - change (Nat.iter (S n) (advance frontSensor) p)
      with (advance frontSensor (Nat.iter n (advance frontSensor) p)).
    rewrite IH. reflexivity.
Qed.

Lemma iter_frontSampled_tape_ok k w :
  tape_ok frontSensor w -> tape_ok frontSensor (Nat.iter k frontSampled w).
Proof.
  intros Hok. unfold tape_ok. rewrite iter_frontSampled_env. exact Hok.
Qed.

(** C7. Every sampling call takes N raw pings with 3 <= N <= 5, N being
    the value [random(3,6)] returns for that call, and (the pings being in
    the sensor's range) measures their truncating integer mean:
    [measureLeftDistance] and [measureRightDistance] return and store that
    mean unconditionally, also when it is 0.  A batch of the front sensor
    takes its N pings from the front sensor and stores their mean in
    [front]; [measureFrontDistance] returns the mean of the first batch
    whose mean is not 0, as soon as there is one, and a value it returns
    is always that mean. *)
Theorem measure_is_mean :
  (forall w,
      3 <= batchCount w <= 5 /\
      random 3 6 w = Some (batchCount w, set_pos (advanceRandom (pos w)) w)) /\
  (forall s w, Z.of_nat (List.length (batchReadings s w)) = batchCount w) /\
  (forall w,
      tape_ok leftSensor w ->
      measureLeftDistance w =
      Some (mean (batchReadings leftSensor w), leftMeasured w) /\
      left (eyes (leftMeasured w)) = mean (batchReadings leftSensor w)) /\
  (forall w,
      tape_ok rightSensor w ->
      measureRightDistance w =
      Some (mean (batchReadings rightSensor w), rightMeasured w) /\
      right (eyes (rightMeasured w)) = mean (batchReadings rightSensor w)) /\
  (forall fuel w v w',
      tape_ok frontSensor w ->
      measureFrontDistance fuel w = Some (v, w') ->
      exists k,
        v = mean (batchReadings frontSensor (Nat.iter k frontSampled w)) /\
        w' = frontSampled (Nat.iter k frontSampled w)) /\
  (forall w,
      tape_ok frontSensor w ->
      front (eyes (frontSampled w)) = mean (batchReadings frontSensor w) /\
      frontPos (pos (frontSampled w)) =
      (Z.to_nat (batchCount w) + frontPos (pos w))%nat /\
      randomPos (pos (frontSampled w)) = S (randomPos (pos w)) /\
      trace (frontSampled w) =
      trace w ++ repeat (Delay 5) (Z.to_nat (batchCount w))) /\
  (forall k w fuel,
      tape_ok frontSensor w ->
      (forall j, (j < k)%nat ->
         mean (batchReadings frontSensor (Nat.iter j frontSampled w)) = 0) ->
      mean (batchReadings frontSensor (Nat.iter k frontSampled w)) <> 0 ->
      (k < fuel)%nat ->
      measureFrontDistance fuel w =
      Some (mean (batchReadings frontSensor (Nat.iter k frontSampled w)),
            frontSampled (Nat.iter k frontSampled w))) /\
  option_map fst (measureLeftDistance (worldOf (steadyEnv 20 0 0) (0, 0, 0) 0))
  = Some 0 /\
  option_map fst (measureRightDistance (worldOf (steadyEnv 20 0 0) (0, 0, 0) 0))
  = Some 0.
Proof.
  split; [intros w; split; [apply batchCount_range | apply random_3_6]|].
  split; [apply batchReadings_length|].
  split; [|split; [|split; [|split; [|split; [|split; reflexivity]]]]].
  - intros w Hok. rewrite measureLeftDistance_spec.
    rewrite <- (batchQuotient_mean _ _ Hok). split; reflexivity.
  - intros w Hok. rewrite measureRightDistance_spec.
    rewrite <- (batchQuotient_mean _ _ Hok). split; reflexivity.
  - intros fuel w v w' Hok H.
    destruct (measureFrontDistance_first _ _ _ _ H) as (k & _ & _ & Hv & Hw).
    exists k. split; [|exact Hw].
    rewrite Hv. apply batchQuotient_mean.
    apply iter_frontSampled_tape_ok. exact Hok.
  - intros w Hok. rewrite <- (batchQuotient_mean _ _ Hok).
    unfold frontSampled, afterBatch. cbv zeta.
    cbn [pos trace eyes set_eyes set_trace set_pos front].
    rewrite iter_advance_front. repeat split; reflexivity.
  - intros k w fuel Hok Hz Hnz Hfuel.
    rewrite <- (batchQuotient_mean _ _ (iter_frontSampled_tape_ok k w Hok)) in *.
    apply measureFrontDistance_returns; [|exact Hnz|exact Hfuel].
    intros j Hj.
    rewrite (batchQuotient_mean _ _ (iter_frontSampled_tape_ok j w Hok)).
    apply Hz. exact Hj.
Qed.

Lemma steadyEnv_tape_ok s f l r before counter :
  (f <= 6553)%N -> (l <= 6553)%N -> (r <= 6553)%N ->
  tape_ok s (worldOf (steadyEnv f l r) before counter).
Proof.
  intros Hf Hl Hr i. unfold ping_ok, INT_MAX.
  destruct s; cbn [tape worldOf steadyEnv env frontTape leftTape rightTape]; lia.
Qed.

Lemma dropoutEnv_tape_ok s before counter :
  tape_ok s (worldOf dropoutEnv before counter).
Proof.
  intros i. unfold ping_ok, INT_MAX.
  destruct s; cbn [tape worldOf dropoutEnv env frontTape leftTape rightTape];
    try destruct (i <? 3)%nat; cbn; lia.
Qed.

Lemma measure_is_mean_witness :
  measureLeftDistance (worldOf (steadyEnv 118 37 52) (0, 0, 0) 0) =
  Some (mean [37; 37; 37],
        leftMeasured (worldOf (steadyEnv 118 37 52) (0, 0, 0) 0)) /\
  mean [37; 37; 37] = 37 /\
  measureFrontDistance 1 (worldOf (steadyEnv 118 37 52) (0, 0, 0) 0) =
  Some (mean [118; 118; 118],
        frontSampled (worldOf (steadyEnv 118 37 52) (0, 0, 0) 0)) /\
  mean [118; 118; 118] = 118 /\
  measureFrontDistance 2 (worldOf dropoutEnv (0, 0, 0) 0) =
  Some (mean [20; 20; 20],
        frontSampled (frontSampled (worldOf dropoutEnv (0, 0, 0) 0))) /\
  frontPos (pos (frontSampled (frontSampled (worldOf dropoutEnv (0, 0, 0) 0))))
  = 6%nat /\
  (exists k,
      118 = mean (batchReadings frontSensor
                    (Nat.iter k frontSampled
                       (worldOf (steadyEnv 118 37 52) (0, 0, 0) 0)))).
Proof.
  destruct measure_is_mean as (_ & _ & Hl & _ & Hf & Hbatch & Hlive & _).
  assert (Hrun : measureFrontDistance 1
                   (worldOf (steadyEnv 118 37 52) (0, 0, 0) 0) =
                 Some (mean [118; 118; 118],
                       frontSampled
                         (worldOf (steadyEnv 118 37 52) (0, 0, 0) 0))).
  { apply (Hlive 0%nat (worldOf (steadyEnv 118 37 52) (0, 0, 0) 0) 1%nat).
    - apply steadyEnv_tape_ok; lia.
    - intros j Hj. lia.
    - vm_compute. discriminate.
    - lia. }
  split; [|split; [reflexivity|split; [exact Hrun|split; [reflexivity|split; [|split]]]]].
  - apply (Hl (worldOf (steadyEnv 118 37 52) (0, 0, 0) 0)).
    apply steadyEnv_tape_ok; lia.
  - apply (Hlive 1%nat (worldOf dropoutEnv (0, 0, 0) 0) 2%nat).
    + apply dropoutEnv_tape_ok.
    + intros j Hj. assert (j = 0%nat) as -> by lia. reflexivity.
    + vm_compute. discriminate.
    + lia.
  - destruct (Hbatch (frontSampled (worldOf dropoutEnv (0, 0, 0) 0)))
      as (_ & Hpos & _).
    + apply (iter_frontSampled_tape_ok 1). apply dropoutEnv_tape_ok.
    + rewrite Hpos. reflexivity.
  - destruct (Hf 1%nat (worldOf (steadyEnv 118 37 52) (0, 0, 0) 0) _ _
                 (steadyEnv_tape_ok frontSensor 118 37 52 (0, 0, 0) 0
                    ltac:(lia) ltac:(lia) ltac:(lia)) Hrun)
      as (k & Hk & _).
    exists k. exact Hk.
Defined.

(** ** Running straight-line code *)

Lemma run_ret {A B : Type} (a : A) (k : A -> M B) w : bind (ret a) k w = k a w.
Proof. reflexivity. Qed.

Lemma run_gets {A B : Type} (f : World -> A) (k : A -> M B) w :
  bind (gets f) k w = k (f w) w.
Proof. reflexivity. Qed.

Lemma run_modify {B : Type} (f : World -> World) (k : unit -> M B) w :
  bind (modify f) k w = k tt (f w).
Proof. reflexivity. Qed.

Lemma run_emit {B : Type} (e : Event) (k : unit -> M B) w :
  bind (emit e) k w = k tt (logged [e] w).
Proof. reflexivity. Qed.

Lemma logged_logged t1 t2 w : logged t2 (logged t1 w) = logged (t1 ++ t2) w.
Proof.
  unfold logged, set_trace. cbn [env pos trace debugMode car eyes nonce
    beforeEyes longVision previousSense].
  rewrite app_assoc. reflexivity.
Qed.

Lemma emit_spec e w : emit e w = Some (tt, logged [e] w).
Proof. reflexivity. Qed.

Lemma car_logged t w : car (logged t w) = car w.
Proof. reflexivity. Qed.

(** Runs the leading events of a straight-line block, keeping the trace
    as one appended list. *)
Ltac run_events :=
  repeat first
    [ rewrite run_emit; cbv beta
    | rewrite run_gets; cbv beta
    | rewrite run_modify; cbv beta
    | rewrite run_ret; cbv beta
    | rewrite emit_spec ];
  rewrite ?logged_logged, ?car_logged; cbn [app].

Lemma reverse_spec w : reverse w = Some (tt, logged reverseCmds w).
Proof. unfold reverse, run. run_events. reflexivity. Qed.

Lemma neutral_spec w : neutral w = Some (tt, logged neutralCmds w).
Proof. unfold neutral, run. run_events. reflexivity. Qed.

Lemma setTopSpeed_spec w :
  setTopSpeed w =
  Some (tt, logged [SetSpeed leftMotor (to_uint8 (maxSpeed (car w)));
                    SetSpeed rightMotor (to_uint8 (maxSpeed (car w)))] w).
Proof. unfold setTopSpeed, setSpeed. run_events. reflexivity. Qed.

Lemma leftUTurn_spec w :
  leftUTurn w = Some (tt, logged (leftUTurnTrace (to_uint8 (maxSpeed (car w)))) w).
Proof.
  unfold leftUTurn.
  rewrite (bind_eq _ _ _ _ _ (neutral_spec _)).
  rewrite (bind_eq _ _ _ _ _ (setTopSpeed_spec _)).
  unfold run, delay. run_events.
  rewrite (bind_eq _ _ _ _ _ (neutral_spec _)).
  run_events. reflexivity.
Qed.

Lemma rightUTurn_spec w :
  rightUTurn w = Some (tt, logged (rightUTurnTrace (to_uint8 (maxSpeed (car w)))) w).
Proof.
  unfold rightUTurn.
  rewrite (bind_eq _ _ _ _ _ (neutral_spec _)).
  rewrite (bind_eq _ _ _ _ _ (setTopSpeed_spec _)).
  unfold run, delay. run_events.
  rewrite (bind_eq _ _ _ _ _ (neutral_spec _)).
  run_events. reflexivity.
Qed.

(** A batch depends on the tapes and the cursors only. *)
Lemma batchQuotient_ext s w w' :
  env w' = env w -> pos w' = pos w -> batchQuotient s w' = batchQuotient s w.
Proof.
  intros He Hp. unfold batchQuotient, batchReadings, batchCount.
  rewrite He, Hp. reflexivity.
Qed.

(** ** The rescue mission *)

Lemma motorCmds_logged t w :
  motorCmds (trace (logged t w)) = motorCmds (trace w) ++ motorCmds t.
Proof. unfold logged, set_trace. cbn [trace]. apply motorCmds_app. Qed.

Lemma motorCmds_driving speed w :
  motorCmds (trace (driving speed w)) = motorCmds (trace w) ++ driveCmds speed.
Proof.
  unfold driving, set_trace, set_car. cbn [trace]. apply motorCmds_app.
Qed.

Lemma batchQuotient_after_left s w w' :
  env w' = env w -> pos w' = pos w ->
  batchQuotient s (leftMeasured w') = batchQuotient s (leftMeasured w).
Proof.
  intros He Hp. apply batchQuotient_ext.
  - exact He.
  - unfold leftMeasured, afterBatch, batchCount.
    cbn [pos set_eyes set_trace set_pos env].
    rewrite He, Hp. reflexivity.
Qed.

Lemma rescueManeuver_spec c0 df w :
  let lv1 := if (c0 >? 100) && (df <=? 5)
             then wrap16 (longVision w + 1) else longVision w in
  exists w',
    rescueManeuver c0 df w = Some (tt, w') /\
    env w' = env w /\ millisPos (pos w') = millisPos (pos w) /\
    nonce w' = nonce w /\ beforeEyes w' = beforeEyes w /\
    if (lv1 >? 2) || (c0 <? 100)
    then longVision w' = 0 /\
         motorCmds (trace w') =
         motorCmds (trace w) ++
         recoveryCmds (to_uint8 (maxSpeed (car w)))
                      (batchQuotient leftSensor w)
                      (batchQuotient rightSensor (leftMeasured w)) /\
         left (eyes w') = batchQuotient leftSensor w /\
         right (eyes w') = batchQuotient rightSensor (leftMeasured w)
    else longVision w' = lv1 /\
         motorCmds (trace w') = motorCmds (trace w) /\
         car w' = car w.
Proof.
  intros lv1.
  assert (Hgen : forall w0,
    env w0 = env w -> pos w0 = pos w -> nonce w0 = nonce w ->
    beforeEyes w0 = beforeEyes w -> trace w0 = trace w -> car w0 = car w ->
    longVision w0 = lv1 ->
    exists w',
      (lv' <- gets longVision ;;
       if (lv' >? 2) || (c0 <? 100) then
         delay 50 ;; changeGear 1 ;; reverse ;; delay 1000 ;;
         l <- measureLeftDistance ;; r <- measureRightDistance ;;
         (if l >? r then leftUTurn else rightUTurn) ;;
         modify (set_longVision 0)
       else ret tt) w0 = Some (tt, w') /\
    env w' = env w /\ millisPos (pos w') = millisPos (pos w) /\
    nonce w' = nonce w /\ beforeEyes w' = beforeEyes w /\
    if (lv1 >? 2) || (c0 <? 100)
    then longVision w' = 0 /\
         motorCmds (trace w') =
         motorCmds (trace w) ++
         recoveryCmds (to_uint8 (maxSpeed (car w)))
                      (batchQuotient leftSensor w)
                      (batchQuotient rightSensor (leftMeasured w)) /\
         left (eyes w') = batchQuotient leftSensor w /\
         right (eyes w') = batchQuotient rightSensor (leftMeasured w)
    else longVision w' = lv1 /\
         motorCmds (trace w') = motorCmds (trace w) /\
         car w' = car w).
  { intros w0 He Hp Hn Hb Ht Hc Hl.
    rewrite run_gets. rewrite Hl.
    destruct ((lv1 >? 2) || (c0 <? 100)).
    - unfold delay. rewrite run_emit.
      rewrite (bind_eq _ _ _ _ _ (changeGear_spec _ _)).
      rewrite (bind_eq _ _ _ _ _ (reverse_spec _)).
      rewrite run_emit.
      rewrite (bind_eq _ _ _ _ _ (measureLeftDistance_spec _)).
      rewrite (bind_eq _ _ _ _ _ (measureRightDistance_spec _)).
      set (X := logged [Delay 1000] (logged reverseCmds
                  (driving (gearSpeed 1) (logged [Delay 50] w0)))).
      assert (HeX : env X = env w) by exact He.
      assert (HpX : pos X = pos w) by exact Hp.
      assert (Hl1 : batchQuotient leftSensor X = batchQuotient leftSensor w)
        by (apply batchQuotient_ext; assumption).
      assert (Hr1 : batchQuotient rightSensor (leftMeasured X) =
                    batchQuotient rightSensor (leftMeasured w))
        by (apply batchQuotient_after_left; assumption).
      rewrite Hl1, Hr1.
      assert (HY : sensing X (rightMeasured (leftMeasured X))).
      { eapply sensing_trans; [apply leftMeasured_sensing | apply rightMeasured_sensing]. }
      destruct HY as (HYe & HYm & _ & HYc & HYn & HYb & _ & HYt).
      assert (HXt : motorCmds (trace X) =
                    motorCmds (trace w) ++ driveCmds 125 ++ reverseCmds).
      { unfold X. rewrite !motorCmds_logged, motorCmds_driving, motorCmds_logged.
        rewrite Ht. cbn [motorCmds filter isMotorCmd].
        rewrite !app_nil_r, <- app_assoc. reflexivity. }
      assert (HXc : maxSpeed (car X) = maxSpeed (car w)).
      { unfold X. cbn. rewrite Hc. reflexivity. }
      assert (HYl : left (eyes (rightMeasured (leftMeasured X))) =
                    batchQuotient leftSensor w).
      { cbn. exact Hl1. }
      assert (HYr : right (eyes (rightMeasured (leftMeasured X))) =
                    batchQuotient rightSensor (leftMeasured w)).
      { cbn. exact Hr1. }
      unfold recoveryCmds.
      destruct (batchQuotient leftSensor w >?
                batchQuotient rightSensor (leftMeasured w)).
      + rewrite (bind_eq _ _ _ _ _ (leftUTurn_spec _)).
        eexists. split; [reflexivity|].
        cbn [env pos nonce beforeEyes longVision trace eyes set_longVision].
        rewrite motorCmds_logged, HYt, HXt, HYc, HXc.
        change (env (logged ?t ?y)) with (env y).
        change (pos (logged ?t ?y)) with (pos y).
        change (nonce (logged ?t ?y)) with (nonce y).
        change (beforeEyes (logged ?t ?y)) with (beforeEyes y).
        change (eyes (logged ?t ?y)) with (eyes y).
        rewrite HYe, HYm, HYn, HYb, HeX, HpX, HYl, HYr.
        repeat split; try assumption; try reflexivity.
        rewrite <- !app_assoc. reflexivity.
      + rewrite (bind_eq _ _ _ _ _ (rightUTurn_spec _)).
        eexists. split; [reflexivity|].
        cbn [env pos nonce beforeEyes longVision trace eyes set_longVision].
        rewrite motorCmds_logged, HYt, HXt, HYc, HXc.
        change (env (logged ?t ?y)) with (env y).
        change (pos (logged ?t ?y)) with (pos y).
        change (nonce (logged ?t ?y)) with (nonce y).
        change (beforeEyes (logged ?t ?y)) with (beforeEyes y).
        change (eyes (logged ?t ?y)) with (eyes y).
        rewrite HYe, HYm, HYn, HYb, HeX, HpX, HYl, HYr.
        repeat split; try assumption; try reflexivity.
        rewrite <- !app_assoc. reflexivity.
    - exists w0. split; [reflexivity|].
      rewrite He, Hp, Hn, Hb, Ht, Hc.
      repeat split; try reflexivity; assumption. }
  unfold rescueManeuver. cbv zeta. rewrite run_gets.
  subst lv1.
  destruct ((c0 >? 100) && (df <=? 5)).
  - rewrite run_modify. apply Hgen; reflexivity.
  - rewrite run_ret. apply Hgen; reflexivity.
Qed.

Lemma run_millis {B : Type} (k : Z -> M B) w :
  bind millis k w = k (clockNow w) (tick w).
Proof. reflexivity. Qed.

Lemma csf_spec w :
  csf w = Some (tt, logged [LcdSetCursor 0 0; LcdPrint "                ";
                            LcdSetCursor 0 0] w).
Proof. unfold csf. run_events. reflexivity. Qed.

Lemma rescueMission_idle fuel w :
  elapsed w <= 5000 -> rescueMission fuel w = Some (tt, tick w).
Proof.
  intros H. unfold rescueMission. rewrite run_millis, run_gets.
  change (nonce (tick w)) with (nonce w). fold (elapsed w).
  destruct (Z.gtb_spec (elapsed w) 5000); [lia | reflexivity].
Qed.

Lemma rescueMission_fires fuel w c0 w1 :
  5000 < elapsed w ->
  measureFrontDistance fuel (tick w) = Some (c0, w1) ->
  let df := frontDelta (fst (fst (beforeEyes w))) c0 in
  let lv1 := if (c0 >? 100) && (df <=? 5)
             then wrap16 (longVision w + 1) else longVision w in
  let w3 := rightMeasured (leftMeasured w1) in
  exists w',
    rescueMission fuel w = Some (tt, w') /\
    beforeEyes w' = (c0, batchQuotient leftSensor w1,
                     batchQuotient rightSensor (leftMeasured w1)) /\
    nonce w' = wrap32 (Z.of_N (millisTape (env w) (S (millisPos (pos w))))) /\
    if (df <=? 10) && ((lv1 >? 2) || (c0 <? 100))
    then longVision w' = 0 /\
         motorCmds (trace w') =
         motorCmds (trace w) ++
         recoveryCmds (to_uint8 (maxSpeed (car w)))
                      (batchQuotient leftSensor w3)
                      (batchQuotient rightSensor (leftMeasured w3)) /\
         left (eyes w') = batchQuotient leftSensor w3 /\
         right (eyes w') = batchQuotient rightSensor (leftMeasured w3)
    else longVision w' = (if df <=? 10 then lv1 else longVision w) /\
         motorCmds (trace w') = motorCmds (trace w) /\
         car w' = car w.
Proof.
  intros Hel Hfront df lv1 w3.
  unfold rescueMission. rewrite run_millis, run_gets.
  change (nonce (tick w)) with (nonce w). fold (elapsed w).
  destruct (Z.gtb_spec (elapsed w) 5000) as [_|]; [|lia].
  rewrite (bind_eq _ _ _ _ _ Hfront).
  rewrite (bind_eq _ _ _ _ _ (measureLeftDistance_spec _)).
  rewrite (bind_eq _ _ _ _ _ (measureRightDistance_spec _)).
  fold w3. cbv zeta.
  rewrite (bind_eq _ _ _ _ _ (csf_spec _)).
  run_events.
  assert (H3 : sensing (tick w) w3).
  { eapply sensing_trans; [eapply measureFrontDistance_sensing; exact Hfront|].
    eapply sensing_trans; [apply leftMeasured_sensing | apply rightMeasured_sensing]. }
  destruct H3 as (H3e & H3m & _ & H3c & H3n & H3b & H3l & H3t).
  change (beforeEyes (logged ?t ?y)) with (beforeEyes y).
  rewrite H3b. change (beforeEyes (tick w)) with (beforeEyes w).
  fold (frontDelta (fst (fst (beforeEyes w))) c0). fold df.
  fold (thresholdDisplay df).
  set (w4 := logged (thresholdDisplay df) w3).
  assert (H4l : longVision w4 = longVision w) by exact H3l.
  assert (H4c : car w4 = car w) by exact H3c.
  assert (H4t : motorCmds (trace w4) = motorCmds (trace w)).
  { unfold w4. rewrite motorCmds_logged, H3t. apply app_nil_r. }
  assert (H4q : batchQuotient leftSensor w4 = batchQuotient leftSensor w3)
    by (apply batchQuotient_ext; reflexivity).
  assert (H4r : batchQuotient rightSensor (leftMeasured w4) =
                batchQuotient rightSensor (leftMeasured w3))
    by (apply batchQuotient_after_left; reflexivity).
  destruct (df <=? 10); cbn [andb].
  - destruct (rescueManeuver_spec c0 df w4)
      as (w5 & Hrun & H5e & H5m & H5n & H5b & H5).
    rewrite (bind_eq _ _ _ _ _ Hrun), run_millis, run_modify.
    eexists. split; [reflexivity|].
    split; [reflexivity|]. split.
    + cbn [nonce set_beforeEyes set_nonce]. unfold clockNow.
      rewrite H5e, H5m. change (env w4) with (env w3).
      change (pos w4) with (pos w3). rewrite H3e, H3m. reflexivity.
    + rewrite H4l, H4c, H4t, H4q, H4r in H5. fold lv1 in H5.
      exact H5.
  - rewrite run_ret, run_millis, run_modify.
    eexists. split; [reflexivity|].
    split; [reflexivity|]. split.
    + cbn [nonce set_beforeEyes set_nonce]. unfold clockNow.
      change (env w4) with (env w3).
      change (pos w4) with (pos w3). rewrite H3e, H3m. reflexivity.
    + split; [exact H4l|]. split; [exact H4t | exact H4c].
Qed.

Lemma rescueMission_starves fuel w :
  5000 < elapsed w ->
  measureFrontDistance fuel (tick w) = None ->
  rescueMission fuel w = None.
Proof.
  intros Hel Hnone. unfold rescueMission. rewrite run_millis, run_gets.
  change (nonce (tick w)) with (nonce w). fold (elapsed w).
  destruct (Z.gtb_spec (elapsed w) 5000) as [_|]; [|lia].
  unfold bind. rewrite Hnone. reflexivity.
Qed.

(** C8, as amended. [rescueMission] leaves the baseline, the stagnation
    counter and the timer (and the trace and the eyes) unchanged when the
    time elapsed since the last evaluation is at most 5000.  When it fires
    and the front measurement of the firing returns (which it does as soon
    as a batch of the front sensor has a mean that is not 0), it returns
    with the triple it sampled at the start of the firing stored as the
    baseline and the clock read again into the timer, whether or not it
    recovered.  When it fires and the front measurement does not return,
    the mission does not return either, so nothing is stored. *)
Theorem rescueMission_frame :
  (forall fuel w,
      elapsed w <= 5000 ->
      rescueMission fuel w = Some (tt, tick w) /\
      beforeEyes (tick w) = beforeEyes w /\
      longVision (tick w) = longVision w /\
      nonce (tick w) = nonce w /\
      trace (tick w) = trace w /\
      eyes (tick w) = eyes w) /\
  (forall fuel w c0 w1,
      5000 < elapsed w ->
      measureFrontDistance fuel (tick w) = Some (c0, w1) ->
      exists w',
        rescueMission fuel w = Some (tt, w') /\
        beforeEyes w' = (c0, batchQuotient leftSensor w1,
                         batchQuotient rightSensor (leftMeasured w1)) /\
        nonce w' =
        wrap32 (Z.of_N (millisTape (env w) (S (millisPos (pos w)))))) /\
  (forall k fuel w,
      5000 < elapsed w ->
      (forall j, (j < k)%nat ->
         batchQuotient frontSensor (Nat.iter j frontSampled (tick w)) = 0) ->
      batchQuotient frontSensor (Nat.iter k frontSampled (tick w)) <> 0 ->
      (k < fuel)%nat ->
      let w1 := Nat.iter (S k) frontSampled (tick w) in
      exists w',
        rescueMission fuel w = Some (tt, w') /\
        beforeEyes w' =
        (batchQuotient frontSensor (Nat.iter k frontSampled (tick w)),
         batchQuotient leftSensor w1,
         batchQuotient rightSensor (leftMeasured w1)) /\
        nonce w' =
        wrap32 (Z.of_N (millisTape (env w) (S (millisPos (pos w)))))) /\
  (forall fuel w,
      5000 < elapsed w ->
      measureFrontDistance fuel (tick w) = None ->
      rescueMission fuel w = None).
Proof.
  assert (Hfire : forall fuel w c0 w1,
             5000 < elapsed w ->
             measureFrontDistance fuel (tick w) = Some (c0, w1) ->
             exists w',
               rescueMission fuel w = Some (tt, w') /\
               beforeEyes w' = (c0, batchQuotient leftSensor w1,
                                batchQuotient rightSensor (leftMeasured w1)) /\
               nonce w' =
               wrap32 (Z.of_N (millisTape (env w) (S (millisPos (pos w)))))).
  { intros fuel w c0 w1 Hel Hfront.
    destruct (rescueMission_fires fuel w c0 w1 Hel Hfront)
      as (w' & Hrun & Hb & Hn & _).
    exists w'. auto. }
  split; [|split; [exact Hfire|split]].
  - intros fuel w H. split; [apply rescueMission_idle; exact H|].
    repeat split; reflexivity.
  - intros k fuel w Hel Hz Hnz Hfuel w1.
    apply Hfire; [exact Hel|].
    apply measureFrontDistance_returns; assumption.
  - exact rescueMission_starves.
Qed.

Lemma rescueMission_frame_witness :
  rescueMission 1 (set_nonce 4000 (worldOf (steadyEnv 118 30 30) (120, 0, 0) 0))
  = Some (tt, tick (set_nonce 4000
                      (worldOf (steadyEnv 118 30 30) (120, 0, 0) 0))) /\
  (exists w',
      rescueMission 1 (worldOf (steadyEnv 118 30 30) (120, 0, 0) 0)
      = Some (tt, w') /\
      beforeEyes w' = (118, 30, 30) /\ nonce w' = 12000) /\
  (exists w',
      rescueMission 2 (worldOf dropoutEnv (120, 0, 0) 0) = Some (tt, w') /\
      beforeEyes w' = (20, 0, 0) /\ nonce w' = 12000) /\
  rescueMission 1 (worldOf dropoutEnv (120, 0, 0) 0) = None.
Proof.
  destruct rescueMission_frame as (Hidle & Hfire & Hlive & Hnone).
  split; [|split; [|split]].
  - apply (Hidle 1%nat
             (set_nonce 4000 (worldOf (steadyEnv 118 30 30) (120, 0, 0) 0))).
    vm_compute. discriminate.
  - destruct (Hfire 1%nat (worldOf (steadyEnv 118 30 30) (120, 0, 0) 0) 118
                    (frontSampled
                       (tick (worldOf (steadyEnv 118 30 30) (120, 0, 0) 0))))
      as (w' & Hrun & Hb & Hn).
    + vm_compute. reflexivity.
    + reflexivity.
    + exists w'. split; [exact Hrun|]. split; [exact Hb | exact Hn].
  - destruct (Hlive 1%nat 2%nat (worldOf dropoutEnv (120, 0, 0) 0))
      as (w' & Hrun & Hb & Hn).
    + vm_compute. reflexivity.
    + intros j Hj. assert (j = 0%nat) as -> by lia. reflexivity.
    + vm_compute. discriminate.
    + lia.
    + exists w'. split; [exact Hrun|]. split; [exact Hb | exact Hn].
  - apply (Hnone 1%nat (worldOf dropoutEnv (120, 0, 0) 0)).
    + vm_compute. reflexivity.
    + reflexivity.
Defined.

(** C8 as first stated fails on a front sensor that hears no echo.  With
    every front ping 0 the mission fires (6000 have elapsed), and for no
    depth of recursion does it return: the front measurement recurses for
    ever, so the baseline is never stored and the timer never reset. *)
Lemma rescueMission_frame_counterexample :
  5000 < elapsed (worldOf deafEnv (120, 0, 0) 0) /\
  (forall fuel, rescueMission fuel (worldOf deafEnv (120, 0, 0) 0) = None).
Proof.
  split; [vm_compute; reflexivity|].
  intros fuel. apply rescueMission_starves; [vm_compute; reflexivity|].
  apply measureFrontDistance_starves. intros j _.
  apply batchQuotient_silent. intros i.
  rewrite iter_frontSampled_env. reflexivity.
Qed.

(** C4. A firing of [rescueMission] with previous front distance 120 and
    current front distance 118 only counts while the stagnation counter
    is 0 or 1 (it becomes 1, then 2, and no motor command is sent), and at
    counter 2, the third such firing in a row, it recovers: gear 1,
    reverse, the U-turn toward the larger of a fresh left and a fresh
    right sample, counter back to 0.  Moreover a firing whose [df] is at
    most 10 with a current front distance below 100 recovers whatever the
    counter is. *)
Theorem rescueMission_stagnation :
  (forall fuel w w1,
      5000 < elapsed w ->
      fst (fst (beforeEyes w)) = 120 ->
      measureFrontDistance fuel (tick w) = Some (118, w1) ->
      exists w',
        rescueMission fuel w = Some (tt, w') /\
        (longVision w = 0 -> onlyCounts w w' /\ longVision w' = 1) /\
        (longVision w = 1 -> onlyCounts w w' /\ longVision w' = 2) /\
        (longVision w = 2 -> recovers w w1 w')) /\
  (forall fuel w current w1,
      5000 < elapsed w ->
      measureFrontDistance fuel (tick w) = Some (current, w1) ->
      frontDelta (fst (fst (beforeEyes w))) current <= 10 ->
      current < 100 ->
      exists w', rescueMission fuel w = Some (tt, w') /\ recovers w w1 w').
Proof.
  split.
  - intros fuel w w1 Hel Hprev Hfront.
    destruct (rescueMission_fires fuel w 118 w1 Hel Hfront)
      as (w' & Hrun & _ & _ & H).
    exists w'. split; [exact Hrun|].
    rewrite Hprev in H.
    change (frontDelta 120 118) with 2 in H. cbn [Z.leb Z.compare Pos.compare
      Pos.compare_cont Z.gtb Z.ltb andb orb] in H.
    split; [|split]; intros Hlv; rewrite Hlv in H.
    + change ((wrap16 (0 + 1) >? 2) || false) with false in H.
      change (wrap16 (0 + 1)) with 1 in H. cbv iota in H.
      unfold onlyCounts. rewrite Hlv. intuition auto.
    + change ((wrap16 (1 + 1) >? 2) || false) with false in H.
      change (wrap16 (1 + 1)) with 2 in H. cbv iota in H.
      unfold onlyCounts. rewrite Hlv. intuition auto.
    + change ((wrap16 (2 + 1) >? 2) || false) with true in H.
      cbv iota in H. unfold recovers. cbv zeta. intuition auto.
  - intros fuel w current w1 Hel Hfront Hdf Hcur.
    destruct (rescueMission_fires fuel w current w1 Hel Hfront)
      as (w' & Hrun & _ & _ & H).
    exists w'. split; [exact Hrun|].
    destruct (Z.leb_spec (frontDelta (fst (fst (beforeEyes w))) current) 10);
      [|lia].
    destruct (Z.ltb_spec current 100); [|lia].
    rewrite orb_true_r in H. cbn [andb] in H.
    unfold recovers. cbv zeta. intuition auto.
Qed.

Lemma rescueMission_stagnation_witness :
  (exists w',
      rescueMission 1 (worldOf (steadyEnv 118 30 60) (120, 0, 0) 0)
      = Some (tt, w') /\
      longVision w' = 1 /\ motorCmds (trace w') = []) /\
  (exists w',
      rescueMission 1 (worldOf (steadyEnv 118 30 60) (120, 0, 0) 1)
      = Some (tt, w') /\
      longVision w' = 2 /\ motorCmds (trace w') = []) /\
  (exists w',
      rescueMission 1 (worldOf (steadyEnv 118 30 60) (120, 0, 0) 2)
      = Some (tt, w') /\
      longVision w' = 0 /\
      motorCmds (trace w') =
      driveCmds 125 ++ reverseCmds ++ rightUTurnCmds 250) /\
  (exists w',
      rescueMission 1 (worldOf (steadyEnv 60 70 20) (65, 0, 0) 0)
      = Some (tt, w') /\
      longVision w' = 0 /\
      motorCmds (trace w') =
      driveCmds 125 ++ reverseCmds ++ leftUTurnCmds 250).
Proof.
  destruct rescueMission_stagnation as (Hstall & Hclose).
  split; [|split; [|split]].
  - destruct (Hstall 1%nat (worldOf (steadyEnv 118 30 60) (120, 0, 0) 0)
                (frontSampled
                   (tick (worldOf (steadyEnv 118 30 60) (120, 0, 0) 0))))
      as (w' & Hrun & H0 & _ & _).
    + vm_compute. reflexivity.
    + reflexivity.
    + reflexivity.
    + destruct (H0 eq_refl) as ((_ & Ht & _) & Hl).
      exists w'. split; [exact Hrun|]. split; [exact Hl | exact Ht].
  - destruct (Hstall 1%nat (worldOf (steadyEnv 118 30 60) (120, 0, 0) 1)
                (frontSampled
                   (tick (worldOf (steadyEnv 118 30 60) (120, 0, 0) 1))))
      as (w' & Hrun & _ & H1 & _).
    + vm_compute. reflexivity.
    + reflexivity.
    + reflexivity.
    + destruct (H1 eq_refl) as ((_ & Ht & _) & Hl).
      exists w'. split; [exact Hrun|]. split; [exact Hl | exact Ht].
  - destruct (Hstall 1%nat (worldOf (steadyEnv 118 30 60) (120, 0, 0) 2)
                (frontSampled
                   (tick (worldOf (steadyEnv 118 30 60) (120, 0, 0) 2))))
      as (w' & Hrun & _ & _ & H2).
    + vm_compute. reflexivity.
    + reflexivity.
    + reflexivity.
    + destruct (H2 eq_refl) as (Hl & _ & _ & Ht).
      exists w'. split; [exact Hrun|]. split; [exact Hl | exact Ht].
  - destruct (Hclose 1%nat (worldOf (steadyEnv 60 70 20) (65, 0, 0) 0) 60
                (frontSampled
                   (tick (worldOf (steadyEnv 60 70 20) (65, 0, 0) 0))))
      as (w' & Hrun & Hl & _ & _ & Ht).
    + vm_compute. reflexivity.
    + reflexivity.
    + vm_compute. discriminate.
    + lia.
    + exists w'. split; [exact Hrun|]. split; [exact Hl | exact Ht].
Defined.

(** Three checks in a row on a car that stands 118 in front of a wall,
    the baseline being 120 at first: the counter goes 1, 2, and the third
    check recovers with a right U-turn, the right side being the wider. *)
Example three_checks_in_a_row :
  exists w1 w2 w3,
    rescueMission 1 (worldOf (steadyEnv 118 30 60) (120, 0, 0) 0)
    = Some (tt, w1) /\
    rescueMission 1 w1 = Some (tt, w2) /\
    rescueMission 1 w2 = Some (tt, w3) /\
    (longVision w1, longVision w2, longVision w3) = (1, 2, 0) /\
    (beforeEyes w1, beforeEyes w3) = ((118, 30, 60), (118, 30, 60)) /\
    (nonce w1, nonce w2, nonce w3) = (12000, 24000, 36000) /\
    motorCmds (trace w2) = [] /\
    motorCmds (trace w3) =
    driveCmds 125 ++ reverseCmds ++ rightUTurnCmds 250.
Proof.
  do 3 eexists.
  split; [vm_compute; reflexivity|].
  split; [vm_compute; reflexivity|].
  split; [vm_compute; reflexivity|].
  repeat split; vm_compute; reflexivity.
Qed.

(** * Further properties of the sketch *)

(** ** A front sensor without echo *)

(** X1. When the front sensor never hears an echo (every ping is 0),
    [measureFrontDistance] does not return, whatever the depth of recursion
    allowed, and neither does anything that waits for it: [commonSense],
    [seekAlternateRoute], [suggestGear], and [rescueMission] once it
    fires. *)
Theorem silent_front_never_returns :
  forall w fuel,
    (forall i, frontTape (env w) i = 0%N) ->
    measureFrontDistance fuel w = None /\
    commonSense fuel w = None /\
    seekAlternateRoute fuel w = None /\
    suggestGear fuel w = None /\
    (5000 < elapsed w -> rescueMission fuel w = None).
Proof.
  intros w fuel Hsilent.
  assert (Hany : forall w0, env w0 = env w ->
                            measureFrontDistance fuel w0 = None).
  { intros w0 He. apply measureFrontDistance_starves. intros j _.
    apply batchQuotient_silent. intros i.
    rewrite iter_frontSampled_env, He. apply Hsilent. }
  split; [apply Hany; reflexivity|].
  split; [unfold commonSense, openEyesWide, bind;
          rewrite (Hany w eq_refl); reflexivity|].
  split; [unfold seekAlternateRoute, openEyesWide, bind;
          rewrite (Hany w eq_refl); reflexivity|].
  split; [unfold suggestGear, bind; rewrite (Hany w eq_refl); reflexivity|].
  intros Hel. unfold rescueMission. rewrite run_millis, run_gets.
  change (nonce (tick w)) with (nonce w). fold (elapsed w).
  destruct (Z.gtb_spec (elapsed w) 5000) as [_|]; [|lia].
  unfold bind. rewrite (Hany (tick w) eq_refl). reflexivity.
Qed.

Lemma silent_front_never_returns_witness :
  measureFrontDistance 1000 (worldOf deafEnv (120, 0, 0) 0) = None /\
  rescueMission 1000 (worldOf deafEnv (120, 0, 0) 0) = None.
Proof.
  destruct (silent_front_never_returns (worldOf deafEnv (120, 0, 0) 0) 1000)
    as (Hm & _ & _ & _ & Hr).
  - intros i. reflexivity.
  - split; [exact Hm|]. apply Hr. vm_compute. reflexivity.
Defined.

(** ** What a side measurement touches *)

Lemma iter_advance_left n p :
  Nat.iter n (advance leftSensor) p =
  mkCursors (frontPos p) (n + leftPos p) (rightPos p) (randomPos p) (millisPos p).
Proof.
  induction n as [|n IH].
  - destruct p; reflexivity.
  - change (Nat.iter (S n) (advance leftSensor) p)
      with (advance leftSensor (Nat.iter n (advance leftSensor) p)).
    rewrite IH. reflexivity.
Qed.

Lemma iter_advance_right n p :
  Nat.iter n (advance rightSensor) p =
  mkCursors (frontPos p) (leftPos p) (n + rightPos p) (randomPos p) (millisPos p).
Proof.
  induction n as [|n IH].
  - destruct p; reflexivity.
  - change (Nat.iter (S n) (advance rightSensor) p)
      with (advance rightSensor (Nat.iter n (advance rightSensor) p)).
    rewrite IH. reflexivity.
Qed.

(** X2. A measurement of the left side takes N pings, 3 <= N <= 5, from
    the left sensor and one value from the random generator, waits 5 after
    each ping, and stores its result in [left]; it touches neither the
    other sensors, the clock, the fields [front] and [right], the car nor
    the globals of the monitor.  The same holds for the right side with
    the roles of left and right exchanged. *)
Theorem side_measurement_frame :
  forall w,
    let n := Z.to_nat (batchCount w) in
    (3 <= n <= 5)%nat /\
    (exists w',
        measureLeftDistance w = Some (left (eyes w'), w') /\
        pos w' = mkCursors (frontPos (pos w)) (n + leftPos (pos w))
                           (rightPos (pos w)) (S (randomPos (pos w)))
                           (millisPos (pos w)) /\
        trace w' = trace w ++ repeat (Delay 5) n /\
        front (eyes w') = front (eyes w) /\
        right (eyes w') = right (eyes w) /\
        (env w', car w', debugMode w') = (env w, car w, debugMode w) /\
        (nonce w', beforeEyes w', longVision w', previousSense w') =
        (nonce w, beforeEyes w, longVision w, previousSense w)) /\
    (exists w',
        measureRightDistance w = Some (right (eyes w'), w') /\
        pos w' = mkCursors (frontPos (pos w)) (leftPos (pos w))
                           (n + rightPos (pos w)) (S (randomPos (pos w)))
                           (millisPos (pos w)) /\
        trace w' = trace w ++ repeat (Delay 5) n /\
        front (eyes w') = front (eyes w) /\
        left (eyes w') = left (eyes w) /\
        (env w', car w', debugMode w') = (env w, car w, debugMode w) /\
        (nonce w', beforeEyes w', longVision w', previousSense w') =
        (nonce w, beforeEyes w, longVision w, previousSense w)).
Proof.
  intros w n. pose proof (batchCount_range w) as Hc.
  split; [subst n; lia|]. split.
  - exists (leftMeasured w). split; [apply measureLeftDistance_spec|].
    unfold leftMeasured, afterBatch. cbv zeta.
    cbn [pos trace eyes env car debugMode nonce beforeEyes longVision
         previousSense set_eyes set_trace set_pos front right].
    rewrite iter_advance_left. repeat split; reflexivity.
  - exists (rightMeasured w). split; [apply measureRightDistance_spec|].
    unfold rightMeasured, afterBatch. cbv zeta.
    cbn [pos trace eyes env car debugMode nonce beforeEyes longVision
         previousSense set_eyes set_trace set_pos front left].
    rewrite iter_advance_right. repeat split; reflexivity.
Qed.

(** ** The mean stays within the readings *)

Lemma sum_bounds l lo hi :
  Forall (fun p => lo <= p <= hi) l ->
  Z.of_nat (List.length l) * lo <= fold_right Z.add 0 l
  <= Z.of_nat (List.length l) * hi.
Proof.
  induction 1 as [|p l Hp _ IH]; simpl List.length; simpl fold_right.
  - lia.
  - rewrite Nat2Z.inj_succ. lia.
Qed.

Lemma batchQuotient_bounds s w lo hi :
  0 <= lo -> 5 * hi <= INT_MAX ->
  (forall i, lo <= Z.of_N (tape s (env w) i) <= hi) ->
  lo <= batchQuotient s w <= hi.
Proof.
  intros Hlo Hhi Hr.
  assert (Hok : tape_ok s w).
  { intros i. specialize (Hr i). unfold ping_ok. lia. }
  rewrite (batchQuotient_mean _ _ Hok). unfold mean.
  assert (Hall : Forall (fun p => lo <= p <= hi) (batchReadings s w)).
  { unfold batchReadings. apply Forall_map, Forall_forall.
    intros i _. apply Hr. }
  pose proof (sum_bounds _ _ _ Hall) as Hs.
  rewrite batchReadings_length in *.
  pose proof (batchCount_range w) as Hc.
  rewrite Z.quot_div_nonneg by nia.
  split.
  - apply Z.div_le_lower_bound; lia.
  - apply Z.div_le_upper_bound; lia.
Qed.

(** X3. Averaging never leaves the range of the readings: when every
    ping of a sensor lies between [lo] and [hi] (with 0 <= lo, and hi small
    enough for five pings to fit an [int]), each measured distance lies
    between [lo] and [hi] too; for the front sensor it is moreover at
    least 1. *)
Theorem measurement_within_readings :
  forall lo hi w,
    0 <= lo -> 5 * hi <= INT_MAX ->
    ((forall i, lo <= Z.of_N (leftTape (env w) i) <= hi) ->
     exists v w', measureLeftDistance w = Some (v, w') /\ lo <= v <= hi) /\
    ((forall i, lo <= Z.of_N (rightTape (env w) i) <= hi) ->
     exists v w', measureRightDistance w = Some (v, w') /\ lo <= v <= hi) /\
    ((forall i, lo <= Z.of_N (frontTape (env w) i) <= hi) ->
     forall fuel v w',
       measureFrontDistance fuel w = Some (v, w') ->
       lo <= v <= hi /\ 1 <= v).
Proof.
  intros lo hi w Hlo Hhi. split; [|split].
  - intros Hr. exists (batchQuotient leftSensor w), (leftMeasured w).
    split; [apply measureLeftDistance_spec|].
    apply batchQuotient_bounds; assumption.
  - intros Hr. exists (batchQuotient rightSensor w), (rightMeasured w).
    split; [apply measureRightDistance_spec|].
    apply batchQuotient_bounds; assumption.
  - intros Hr fuel v w' H.
    destruct (measureFrontDistance_result _ _ _ _ H) as [Hnz _].
    destruct (measureFrontDistance_first _ _ _ _ H) as (k & _ & _ & Hv & _).
    assert (Hb : lo <= v <= hi).
    { rewrite Hv. apply batchQuotient_bounds; try assumption.
      intros i. cbn [tape]. rewrite iter_frontSampled_env. apply Hr. }
    split; [exact Hb | lia].
Qed.

Lemma measurement_within_readings_witness :
  (exists v w',
      measureLeftDistance (worldOf (steadyEnv 118 37 52) (0, 0, 0) 0)
      = Some (v, w') /\ 30 <= v <= 40) /\
  (forall fuel v w',
      measureFrontDistance fuel (worldOf (steadyEnv 118 37 52) (0, 0, 0) 0)
      = Some (v, w') -> 100 <= v <= 301 /\ 1 <= v).
Proof.
  split.
  - apply (measurement_within_readings 30 40
             (worldOf (steadyEnv 118 37 52) (0, 0, 0) 0)).
    + lia.
    + unfold INT_MAX. lia.
    + intros i. cbn. lia.
  - apply (measurement_within_readings 100 301
             (worldOf (steadyEnv 118 37 52) (0, 0, 0) 0)).
    + lia.
    + unfold INT_MAX. lia.
    + intros i. cbn. lia.
Defined.

(** ** The two classifiers together *)

(** X4. On one and the same triple the two classifiers exclude each
    other: a triple that [commonSense] classifies as SeekAlternate makes
    [seekAlternateRoute] answer NarrowCorridor, whatever the sides are, and
    a triple on which [seekAlternateRoute] picks a side is one that
    [commonSense] classifies as neither ClearAhead nor SeekAlternate.  So
    the bypass is taken only when the front distance has dropped to 40 or
    less between the two samplings. *)
Theorem seek_needs_approach :
  forall e,
    (commonSense_decide e = Some SEEK_ALTERNATE_ROUTE ->
     seekAlternateRoute_decide e = NARROW_ROAD_LEFT_RIGHT) /\
    (commonSense_decide e = Some CLEAR_PATH_AHEAD ->
     seekAlternateRoute_decide e = NARROW_ROAD_LEFT_RIGHT) /\
    (seekAlternateRoute_decide e <> NARROW_ROAD_LEFT_RIGHT ->
     front e <= 40 /\
     commonSense_decide e <> Some SEEK_ALTERNATE_ROUTE /\
     commonSense_decide e <> Some CLEAR_PATH_AHEAD).
Proof.
  intros e.
  unfold commonSense_decide, seekAlternateRoute_decide.
  destruct (Z.gtb_spec (front e) 50), (Z.gtb_spec (front e) 40),
    (Z.gtb_spec (front e) 30), (Z.leb_spec (front e) 40);
    try lia; cbn [andb].
  all: repeat split; try reflexivity; try discriminate; try lia.
  all: try (intros H; discriminate H).
  all: try (intros H; exfalso; apply H; reflexivity).
  all: repeat match goal with
         | |- context [if ?b then _ else _] => destruct b
         end; try discriminate; intros; try discriminate.
Qed.

Lemma seek_needs_approach_witness :
  seekAlternateRoute_decide (mkEyes 45 90 20) = NARROW_ROAD_LEFT_RIGHT /\
  front (mkEyes 35 90 20) <= 40.
Proof.
  split.
  - destruct (seek_needs_approach (mkEyes 45 90 20)) as (Hseek & _ & _).
    apply Hseek. reflexivity.
  - destruct (seek_needs_approach (mkEyes 35 90 20)) as (_ & _ & Hside).
    apply Hside. discriminate.
Defined.

(** ** Invariants of the rescue mission *)

(** A run of [rescueMission] that returns either idled or fired on a
    front measurement that returned. *)
Lemma rescueMission_inv fuel w w' :
  rescueMission fuel w = Some (tt, w') ->
  (elapsed w <= 5000 /\ w' = tick w) \/
  (5000 < elapsed w /\
   exists c0 w1, measureFrontDistance fuel (tick w) = Some (c0, w1)).
Proof.
  intros H. destruct (Z.le_gt_cases (elapsed w) 5000) as [Hidle|Hfire].
  - left. split; [exact Hidle|].
    rewrite (rescueMission_idle fuel w Hidle) in H. congruence.
  - right. split; [exact Hfire|].
    destruct (measureFrontDistance fuel (tick w)) as [[c0 w1]|] eqn:E.
    + exists c0, w1. reflexivity.
    + rewrite (rescueMission_starves fuel w Hfire E) in H. discriminate.
Qed.

Lemma wrap32_range z : 0 <= wrap32 z < 4294967296.
Proof. unfold wrap32. apply Z.mod_pos_bound. lia. Qed.

(** X5. [rescueMission] keeps the state of the monitor well-formed: a
    stagnation counter between 0 and 2 stays between 0 and 2 (a third
    count recovers at once and restarts at 0), a baseline whose front
    distance is not 0 keeps a front distance that is not 0, and a timer
    within the 32 bits of the clock stays within them. *)
Theorem rescueMission_invariant :
  forall fuel w w',
    rescueMission fuel w = Some (tt, w') ->
    (0 <= longVision w <= 2 -> 0 <= longVision w' <= 2) /\
    (fst (fst (beforeEyes w)) <> 0 -> fst (fst (beforeEyes w')) <> 0) /\
    (0 <= nonce w < 4294967296 -> 0 <= nonce w' < 4294967296).
Proof.
  intros fuel w w' H.
  destruct (rescueMission_inv _ _ _ H) as [[_ ->]|[Hfire (c0 & w1 & Hfront)]].
  - repeat split; intros; assumption || (cbn; lia) || idtac.
    all: change (longVision (tick w)) with (longVision w); lia.
  - destruct (rescueMission_fires fuel w c0 w1 Hfire Hfront)
      as (w'' & Hrun & Hb & Hn & Hcase).
    assert (w'' = w') as -> by congruence.
    split; [|split].
    + intros Hlv. cbv zeta in Hcase.
      destruct (frontDelta (fst (fst (beforeEyes w))) c0 <=? 10);
        cbn [andb] in Hcase.
      * destruct ((c0 >? 100) &&
                  (frontDelta (fst (fst (beforeEyes w))) c0 <=? 5)).
        -- rewrite (wrap16_small (longVision w + 1)) in Hcase by lia.
           destruct (Z.gtb_spec (longVision w + 1) 2);
             cbn [orb] in Hcase.
           ++ destruct Hcase as (-> & _). lia.
           ++ destruct (c0 <? 100); destruct Hcase as (-> & _); lia.
        -- destruct (Z.gtb_spec (longVision w) 2); [lia|].
           cbn [orb] in Hcase.
           destruct (c0 <? 100); destruct Hcase as (-> & _); lia.
      * destruct Hcase as (-> & _). lia.
    + intros _. rewrite Hb. cbn [fst].
      apply (measureFrontDistance_result _ _ _ _ Hfront).
    + intros _. rewrite Hn. apply wrap32_range.
Qed.

Lemma rescueMission_invariant_witness :
  exists w',
    rescueMission 1 (worldOf (steadyEnv 118 30 60) (120, 0, 0) 2)
    = Some (tt, w') /\
    0 <= longVision w' <= 2 /\
    fst (fst (beforeEyes w')) <> 0 /\
    0 <= nonce w' < 4294967296.
Proof.
  eexists. split; [vm_compute; reflexivity|].
  refine ((fun H => _)
            (rescueMission_invariant 1
               (worldOf (steadyEnv 118 30 60) (120, 0, 0) 2) _ _)).
  - destruct H as (Hl & Hb & Hn).
    split; [apply Hl; cbn; lia|].
    split; [apply Hb; cbn; discriminate | apply Hn; cbn; lia].
  - vm_compute. reflexivity.
Defined.

(** X6. The timer survives the roll-over of the 32-bit millisecond clock.
    With the timer within the clock's range, let the age of the last
    evaluation be [now - nonce] when the clock reads at least [nonce], and
    [now + 2^32 - nonce] when it reads less (it has wrapped).  Then
    [rescueMission] idles when the age is at most 5000, and otherwise
    fires: it returns with the front distance it measured as the front of
    the baseline as soon as that measurement returns. *)
Theorem rescueMission_clock_rollover :
  forall fuel w,
    0 <= nonce w < 4294967296 ->
    let age := if nonce w <=? clockNow w
               then clockNow w - nonce w
               else clockNow w + 4294967296 - nonce w in
    elapsed w = age /\
    (age <= 5000 -> rescueMission fuel w = Some (tt, tick w)) /\
    (5000 < age ->
     forall c0 w1,
       measureFrontDistance fuel (tick w) = Some (c0, w1) ->
       exists w',
         rescueMission fuel w = Some (tt, w') /\
         fst (fst (beforeEyes w')) = c0).
Proof.
  intros fuel w Hn age.
  pose proof (wrap32_range (Z.of_N (millisTape (env w) (millisPos (pos w)))))
    as Hc. fold (clockNow w) in Hc.
  assert (Hage : elapsed w = age).
  { subst age. unfold elapsed, wrap32.
    destruct (Z.leb_spec (nonce w) (clockNow w)).
    - apply Z.mod_small. lia.
    - replace (clockNow w - nonce w)
        with (clockNow w + 4294967296 - nonce w + (-1) * 4294967296) by lia.
      rewrite Z.mod_add by lia. apply Z.mod_small. lia. }
  split; [exact Hage|]. rewrite <- Hage. split.
  - apply rescueMission_idle.
  - intros Hfire c0 w1 Hfront.
    destruct (rescueMission_fires fuel w c0 w1 Hfire Hfront)
      as (w' & Hrun & Hb & _).
    exists w'. split; [exact Hrun|]. rewrite Hb. reflexivity.
Qed.

Lemma rescueMission_clock_rollover_witness :
  clockNow (set_nonce 4294966296 (worldOf (steadyEnv 118 30 60) (120, 0, 0) 0))
  = 6000 /\
  exists w',
    rescueMission 1
      (set_nonce 4294966296 (worldOf (steadyEnv 118 30 60) (120, 0, 0) 0))
    = Some (tt, w') /\
    fst (fst (beforeEyes w')) = 118.
Proof.
  split; [reflexivity|].
  destruct (rescueMission_clock_rollover 1
              (set_nonce 4294966296
                 (worldOf (steadyEnv 118 30 60) (120, 0, 0) 0)))
    as (_ & _ & Hfire).
  - cbn. lia.
  - apply (Hfire ltac:(vm_compute; reflexivity) 118
             (frontSampled
                (tick (set_nonce 4294966296
                         (worldOf (steadyEnv 118 30 60) (120, 0, 0) 0))))).
    reflexivity.
Defined.

(** X7. Firings that leave the car alone.  A firing in which the front
    distance changed by more than 10 sends no motor command and keeps the
    stagnation counter as it is: progress does not reset the count.  With
    the counter at most 2, a firing at a front distance of exactly 100
    does the same whatever the change is (100 is neither "more than 100"
    nor "less than 100"), and so does a firing above 100 with a change of 6
    to 10. *)
Theorem rescueMission_quiet_firings :
  forall fuel w current w1,
    5000 < elapsed w ->
    measureFrontDistance fuel (tick w) = Some (current, w1) ->
    let df := frontDelta (fst (fst (beforeEyes w))) current in
    (10 < df \/
     (longVision w <= 2 /\ current = 100) \/
     (longVision w <= 2 /\ 100 < current /\ 5 < df)) ->
    exists w',
      rescueMission fuel w = Some (tt, w') /\
      longVision w' = longVision w /\
      motorCmds (trace w') = motorCmds (trace w) /\
      car w' = car w.
Proof.
  intros fuel w current w1 Hfire Hfront df Hquiet.
  destruct (rescueMission_fires fuel w current w1 Hfire Hfront)
    as (w' & Hrun & _ & _ & Hcase).
  exists w'. split; [exact Hrun|].
  cbv zeta in Hcase. fold df in Hcase.
  destruct (Z.leb_spec df 10) as [Hle|Hgt]; cbn [andb] in Hcase.
  - destruct Hquiet as [H|[[Hlv ->]|(Hlv & Hc & Hdf)]]; [lia| |].
    + change (100 >? 100) with false in Hcase.
      change (100 <? 100) with false in Hcase.
      cbn [andb] in Hcase.
      destruct (Z.gtb_spec (longVision w) 2); [lia|].
      cbn [orb] in Hcase. exact Hcase.
    + destruct (Z.leb_spec df 5); [lia|].
      rewrite andb_false_r in Hcase.
      destruct (Z.gtb_spec (longVision w) 2); [lia|].
      destruct (Z.ltb_spec current 100); [lia|].
      cbn [orb] in Hcase. exact Hcase.
  - exact Hcase.
Qed.

Lemma rescueMission_quiet_firings_witness :
  (exists w',
      rescueMission 1 (worldOf (steadyEnv 118 30 60) (150, 0, 0) 2)
      = Some (tt, w') /\
      longVision w' = 2 /\ motorCmds (trace w') = []) /\
  (exists w',
      rescueMission 1 (worldOf (steadyEnv 100 30 60) (100, 0, 0) 2)
      = Some (tt, w') /\
      longVision w' = 2 /\ motorCmds (trace w') = []).
Proof.
  split.
  - destruct (rescueMission_quiet_firings 1
                (worldOf (steadyEnv 118 30 60) (150, 0, 0) 2) 118
                (frontSampled
                   (tick (worldOf (steadyEnv 118 30 60) (150, 0, 0) 2))))
      as (w' & Hrun & Hl & Ht & _).
    + vm_compute. reflexivity.
    + reflexivity.
    + left. vm_compute. reflexivity.
    + exists w'. split; [exact Hrun|]. split; [exact Hl | exact Ht].
  - destruct (rescueMission_quiet_firings 1
                (worldOf (steadyEnv 100 30 60) (100, 0, 0) 2) 100
                (frontSampled
                   (tick (worldOf (steadyEnv 100 30 60) (100, 0, 0) 2))))
      as (w' & Hrun & Hl & Ht & _).
    + vm_compute. reflexivity.
    + reflexivity.
    + right. left. split; [cbn; lia | reflexivity].
    + exists w'. split; [exact Hrun|]. split; [exact Hl | exact Ht].
Defined.

(** ** The motors after the methods of [Car] *)

Lemma drive_spec i w : drive i w = Some (tt, logged (driveCmds (to_uint8 i)) w).
Proof. unfold drive, setSpeed, run. run_events. reflexivity. Qed.

Lemma leftTurn_spec w :
  leftTurn w = Some (tt, logged (leftTurnTrace (to_uint8 (maxSpeed (car w)))) w).
Proof.
  unfold leftTurn.
  rewrite (bind_eq _ _ _ _ _ (neutral_spec _)).
  rewrite (bind_eq _ _ _ _ _ (setTopSpeed_spec _)).
  unfold run, delay. run_events.
  rewrite (bind_eq _ _ _ _ _ (neutral_spec _)).
  run_events. reflexivity.
Qed.

Lemma rightTurn_spec w :
  rightTurn w = Some (tt, logged (rightTurnTrace (to_uint8 (maxSpeed (car w)))) w).
Proof.
  unfold rightTurn.
  rewrite (bind_eq _ _ _ _ _ (neutral_spec _)).
  rewrite (bind_eq _ _ _ _ _ (setTopSpeed_spec _)).
  unfold run, delay. run_events.
  rewrite (bind_eq _ _ _ _ _ (neutral_spec _)).
  run_events. reflexivity.
Qed.

Lemma motorsAfter_app st t1 t2 :
  motorsAfter st (t1 ++ t2) = motorsAfter (motorsAfter st t1) t2.
Proof. apply fold_left_app. Qed.

Lemma motorsAfter_motorCmds t : forall st,
  motorsAfter st (motorCmds t) = motorsAfter st t.
Proof.
  induction t as [|e t IH]; intros st; [reflexivity|].
  destruct e as [m s|m d|ms|c r|s|n]; cbn [motorCmds filter isMotorCmd];
    fold (motorCmds t); cbn [motorsAfter fold_left];
    try (rewrite <- IH; reflexivity); apply IH.
Qed.

Lemma to_uint8_small z : 0 <= z < 256 -> to_uint8 z = z.
Proof. intros H. unfold to_uint8. apply Z.mod_small. exact H. Qed.

(** *** [brake] *)

Lemma brakeLoop_spec n : forall i fuel w,
  0 <= i <= INT_MAX -> n = Z.to_nat (i / 10) -> (n + 1 < fuel)%nat ->
  brakeLoop fuel i w =
  Some (tt, logged (flat_map brakeStep (map to_uint8 (brakeSpeeds (S n) i))) w).
Proof.
  unfold INT_MAX.
  induction n as [|n IH]; intros i fuel w Hi Hn Hfuel.
  - assert (Hlt : i < 10).
    { destruct (Z.lt_ge_cases i 10) as [H|H]; [exact H|].
      assert (1 <= i / 10) by (apply Z.div_le_lower_bound; lia). lia. }
    destruct fuel as [|[|fuel]]; try lia.
    cbn [brakeLoop].
    destruct (Z.geb_spec i 0); [|lia].
    rewrite (bind_eq _ _ _ _ _ (drive_spec _ _)).
    unfold delay. rewrite run_emit, logged_logged.
    rewrite wrap16_small by lia.
    destruct (Z.geb_spec (i - 10) 0); [lia|].
    cbn [brakeSpeeds map flat_map]. rewrite app_nil_r. reflexivity.
  - assert (Hge : 10 <= i).
    { destruct (Z.lt_ge_cases i 10) as [H|H]; [|exact H].
      rewrite Z.div_small in Hn by lia. discriminate. }
    assert (Hdiv : (i - 10) / 10 = i / 10 - 1).
    { replace (i - 10) with (i + (-1) * 10) by lia.
      rewrite Z.div_add by lia. lia. }
    destruct fuel as [|fuel]; [lia|].
    cbn [brakeLoop].
    destruct (Z.geb_spec i 0); [|lia].
    rewrite (bind_eq _ _ _ _ _ (drive_spec _ _)).
    unfold delay. rewrite run_emit, logged_logged.
    rewrite wrap16_small by lia.
    rewrite (IH (i - 10) fuel); [|lia|lia|lia].
    rewrite logged_logged.
    change (brakeSpeeds (S (S n)) i) with (i :: brakeSpeeds (S n) (i - 10)).
    cbn [map flat_map]. unfold brakeStep at 3. reflexivity.
Qed.

Lemma brakeSpeeds_end n : forall i st,
  motorsAfter st (flat_map brakeStep (map to_uint8 (brakeSpeeds (S n) i))) =
  both (to_uint8 (i - 10 * Z.of_nat n)) FORWARD.
Proof.
  induction n as [|n IH]; intros i st.
  - cbn. replace (i - 0) with i by lia. reflexivity.
  - change (brakeSpeeds (S (S n)) i) with (i :: brakeSpeeds (S n) (i - 10)).
    cbn [map flat_map]. rewrite motorsAfter_app, IH.
    f_equal. f_equal. lia.
Qed.

Lemma brakeSpeeds_delay n : forall i,
  totalDelay (flat_map brakeStep (map to_uint8 (brakeSpeeds n i))) = Z.of_nat n.
Proof.
  induction n as [|n IH]; intros i; [reflexivity|].
  cbn [brakeSpeeds map flat_map]. unfold brakeStep at 1. cbn [app driveCmds totalDelay].
  rewrite IH. lia.
Qed.

(** X8. [Car::brake] steps the speed down by 10 from [averageSpeed] while
    it is not negative: with [averageSpeed] a >= 0 it returns after
    a/10 + 1 steps of 1 ms each, leaves [averageSpeed] as it was, and
    leaves both motors running forward at speed a mod 10; so it brings the
    car to speed 0 only when a is a multiple of 10 (gears 2 and 4), and
    leaves it at speed 5 in gears 1 and 3.  With a negative [averageSpeed]
    it does nothing. *)
Theorem brake_residual_speed :
  forall fuel w,
    let a := averageSpeed (car w) in
    (a < 0 -> (0 < fuel)%nat -> brake fuel w = Some (tt, w)) /\
    (0 <= a <= INT_MAX -> (Z.to_nat (a / 10) + 1 < fuel)%nat ->
     exists t,
       brake fuel w = Some (tt, logged t w) /\
       totalDelay t = a / 10 + 1 /\
       forall st, motorsAfter st (trace (logged t w)) = both (a mod 10) FORWARD).
Proof.
  intros fuel w a. split.
  - intros Ha Hfuel. unfold brake. rewrite run_gets. fold a.
    destruct fuel as [|fuel]; [lia|]. cbn [brakeLoop].
    destruct (Z.geb_spec a 0); [lia | reflexivity].
  - intros Ha Hfuel.
    exists (flat_map brakeStep
              (map to_uint8 (brakeSpeeds (S (Z.to_nat (a / 10))) a))).
    assert (Hq : 0 <= a / 10) by (apply Z.div_pos; lia).
    split; [|split].
    + unfold brake. rewrite run_gets. fold a.
      apply brakeLoop_spec; [exact Ha | reflexivity | exact Hfuel].
    + rewrite brakeSpeeds_delay. lia.
    + intros st. unfold logged, set_trace. cbn [trace].
      rewrite motorsAfter_app, brakeSpeeds_end.
      rewrite Z2Nat.id by exact Hq.
      assert (Hm : a - 10 * (a / 10) = a mod 10)
        by (rewrite Z.mod_eq by lia; reflexivity).
      rewrite Hm. rewrite to_uint8_small; [reflexivity|].
      pose proof (Z.mod_pos_bound a 10). lia.
Qed.

Lemma brake_residual_speed_witness :
  exists t,
    brake 20 (worldOf (steadyEnv 0 0 0) (0, 0, 0) 0)
    = Some (tt, logged t (worldOf (steadyEnv 0 0 0) (0, 0, 0) 0)) /\
    totalDelay t = 16 /\
    motorsAfter (both 150 FORWARD)
      (trace (logged t (worldOf (steadyEnv 0 0 0) (0, 0, 0) 0)))
    = both 0 FORWARD.
Proof.
  destruct (brake_residual_speed 20 (worldOf (steadyEnv 0 0 0) (0, 0, 0) 0))
    as (_ & Hpos).
  destruct Hpos as (t & Hrun & Hd & Hend).
  - unfold INT_MAX. cbn. lia.
  - cbn. lia.
  - exists t. split; [exact Hrun|]. split; [exact Hd | apply Hend].
Defined.

(** *** Turns *)

(** X9. The four turns of [Car] return, set both motors to [maxSpeed],
    counter-rotate them for one wait and release them for a second wait,
    whatever the motors were doing before: a quarter turn rotates for 500
    and rests for 500, a U-turn rotates for 1250 and rests for 1000, and
    apart from these waits a U-turn sends the motor commands of the
    quarter turn.  The right turns are the left turns with forward and
    backward exchanged.  All four leave both motors released. *)
Theorem turns_rotate_then_release :
  forall w st,
    let top := to_uint8 (maxSpeed (car w)) in
    let spinLeft := (mkMotorState top BACKWARD, mkMotorState top FORWARD) in
    let spinRight := (mkMotorState top FORWARD, mkMotorState top BACKWARD) in
    (leftTurn w = Some (tt, logged (leftTurnTrace top) w) /\
     rightTurn w = Some (tt, logged (rightTurnTrace top) w) /\
     leftUTurn w = Some (tt, logged (leftUTurnTrace top) w) /\
     rightUTurn w = Some (tt, logged (rightUTurnTrace top) w)) /\
    (phases st (leftTurnTrace top) = [(500, spinLeft); (500, both top RELEASE)] /\
     phases st (rightTurnTrace top) = [(500, spinRight); (500, both top RELEASE)] /\
     phases st (leftUTurnTrace top) = [(1250, spinLeft); (1000, both top RELEASE)] /\
     phases st (rightUTurnTrace top) = [(1250, spinRight); (1000, both top RELEASE)]) /\
    (motorCmds (leftUTurnTrace top) = motorCmds (leftTurnTrace top) /\
     motorCmds (rightUTurnTrace top) = motorCmds (rightTurnTrace top) /\
     map mirror (leftTurnTrace top) = rightTurnTrace top /\
     map mirror (leftUTurnTrace top) = rightUTurnTrace top) /\
    (motorsAfter st (leftTurnTrace top) = both top RELEASE /\
     motorsAfter st (rightTurnTrace top) = both top RELEASE /\
     motorsAfter st (leftUTurnTrace top) = both top RELEASE /\
     motorsAfter st (rightUTurnTrace top) = both top RELEASE).
Proof.
  intros w st top spinLeft spinRight.
  split; [|split; [|split]].
  - split; [apply leftTurn_spec|]. split; [apply rightTurn_spec|].
    split; [apply leftUTurn_spec | apply rightUTurn_spec].
  - destruct st as [[sl dl] [sr dr]]. repeat split; reflexivity.
  - repeat split; reflexivity.
  - destruct st as [[sl dl] [sr dr]]. repeat split; reflexivity.
Qed.

(** *** Lane overtakes *)

Lemma setOptimalSpeed_spec w :
  setOptimalSpeed w =
  Some (tt, logged [SetSpeed leftMotor (to_uint8 (averageSpeed (car w)));
                    SetSpeed rightMotor (to_uint8 (averageSpeed (car w)))] w).
Proof. unfold setOptimalSpeed, setSpeed. run_events. reflexivity. Qed.

Lemma trace_driving speed w :
  trace (driving speed w) = trace w ++ driveCmds speed.
Proof. reflexivity. Qed.

(** X10. The two lane overtakes return after two waits of 250 and end in
    gear 3 whatever the gear was: [averageSpeed] is 175 and both motors
    run forward at 175.  During the first wait one motor is set to 0
    backward and the other to 200 forward; for the second wait only the
    speeds are exchanged, so the motor that was told to run backward now
    runs backward at 200 while the other stands at 0. *)
Theorem laneOvertake_ends_in_gear3 :
  forall w st,
    (exists t w',
        leftLaneOvertake w = Some (tt, w') /\
        trace w' = trace w ++ t /\
        averageSpeed (car w') = 175 /\
        maxSpeed (car w') = maxSpeed (car w) /\
        phases st t =
        [(250, (mkMotorState 0 BACKWARD, mkMotorState 200 FORWARD));
         (250, (mkMotorState 200 BACKWARD, mkMotorState 0 FORWARD))] /\
        motorsAfter st t = both 175 FORWARD) /\
    (exists t w',
        rightLaneOvertake w = Some (tt, w') /\
        trace w' = trace w ++ t /\
        averageSpeed (car w') = 175 /\
        maxSpeed (car w') = maxSpeed (car w) /\
        phases st t =
        [(250, (mkMotorState 200 FORWARD, mkMotorState 0 BACKWARD));
         (250, (mkMotorState 0 FORWARD, mkMotorState 200 BACKWARD))] /\
        motorsAfter st t = both 175 FORWARD).
Proof.
  intros w st. destruct st as [[sl dl] [sr dr]]. split.
  - eexists. eexists. split.
    + unfold leftLaneOvertake, setSpeed, run, delay. run_events.
      rewrite (bind_eq _ _ _ _ _ (setOptimalSpeed_spec _)).
      rewrite logged_logged, changeGear_spec. reflexivity.
    + rewrite trace_driving. unfold logged, set_trace. cbn [trace car].
      rewrite <- app_assoc.
      split; [reflexivity|]. repeat split; reflexivity.
  - eexists. eexists. split.
    + unfold rightLaneOvertake, setSpeed, run, delay. run_events.
      rewrite (bind_eq _ _ _ _ _ (setOptimalSpeed_spec _)).
      rewrite logged_logged, changeGear_spec. reflexivity.
    + rewrite trace_driving. unfold logged, set_trace. cbn [trace car].
      rewrite <- app_assoc.
      split; [reflexivity|]. repeat split; reflexivity.
Qed.

(** ** Classification is passive *)

Lemma logged_display_sensing t w :
  motorCmds t = [] -> sensing w (logged t w).
Proof.
  intros Ht. unfold sensing, logged, set_trace.
  cbn [env pos trace debugMode car eyes nonce beforeEyes longVision].
  rewrite motorCmds_app, Ht, app_nil_r. repeat split; reflexivity.
Qed.

Lemma openEyesWide_sensing fuel w w' :
  openEyesWide fuel w = Some (tt, w') -> sensing w w'.
Proof.
  unfold openEyesWide. intros H.
  apply bind_Some in H. destruct H as (v & w1 & Hfront & H).
  rewrite (bind_eq _ _ _ _ _ (measureLeftDistance_spec _)) in H.
  rewrite (bind_eq _ _ _ _ _ (measureRightDistance_spec _)) in H.
  rewrite run_gets in H.
  assert (H3 : sensing w (rightMeasured (leftMeasured w1))).
  { eapply sensing_trans; [eapply measureFrontDistance_sensing; exact Hfront|].
    eapply sensing_trans; [apply leftMeasured_sensing | apply rightMeasured_sensing]. }
  destruct (debugMode (rightMeasured (leftMeasured w1)) =? 0).
  - unfold ret in H. injection H as <-. exact H3.
  - revert H. run_events. intros H. injection H as <-.
    eapply sensing_trans; [exact H3|].
    apply logged_display_sensing. reflexivity.
Qed.

Lemma classification_sensing_seek fuel w r w' :
  seekAlternateRoute fuel w = Some (r, w') -> sensing w w'.
Proof.
  intros H. unfold seekAlternateRoute in H.
  apply bind_Some in H. destruct H as ([] & w1 & Ho & H).
  rewrite run_gets in H. unfold ret in H. injection H as _ <-.
  eapply openEyesWide_sensing. exact Ho.
Qed.

(** X11. Looking does not move the car: a run of [commonSense], of
    [seekAlternateRoute] or of [suggestGear] that returns has sent no motor
    command and has left the car's speeds, the clock, the timer, the
    baseline and the stagnation counter of the monitor as they were. *)
Theorem classification_is_passive :
  forall fuel w,
    (forall r w', commonSense fuel w = Some (r, w') -> sensing w w') /\
    (forall r w', seekAlternateRoute fuel w = Some (r, w') -> sensing w w') /\
    (forall g w', suggestGear fuel w = Some (g, w') -> sensing w w').
Proof.
  intros fuel w. split; [|split].
  - intros r w' H. unfold commonSense in H.
    apply bind_Some in H. destruct H as ([] & w1 & Ho & H).
    rewrite run_gets in H. unfold ret in H. injection H as _ <-.
    eapply openEyesWide_sensing. exact Ho.
  - intros r w' H. unfold seekAlternateRoute in H.
    apply bind_Some in H. destruct H as ([] & w1 & Ho & H).
    rewrite run_gets in H. unfold ret in H. injection H as _ <-.
    eapply openEyesWide_sensing. exact Ho.
  - intros g w' H. unfold suggestGear in H.
    apply bind_Some in H. destruct H as (d & w1 & Hf & H).
    unfold ret in H. injection H as _ <-.
    eapply measureFrontDistance_sensing. exact Hf.
Qed.

Lemma classification_is_passive_witness :
  exists w',
    commonSense 1 (worldOf (steadyEnv 25 15 5) (120, 0, 0) 2)
    = Some (Some CLEAR_PATH_LEFT, w') /\
    motorCmds (trace w') = [] /\ longVision w' = 2 /\
    beforeEyes w' = (120, 0, 0).
Proof.
  eexists. split; [vm_compute; reflexivity|].
  destruct (classification_is_passive 1
              (worldOf (steadyEnv 25 15 5) (120, 0, 0) 2)) as (Hc & _ & _).
  refine ((fun H : sensing _ _ => _) (Hc _ _ _)).
  - destruct H as (_ & _ & _ & _ & _ & Hb & Hl & Ht).
    split; [exact Ht|]. split; [exact Hl | exact Hb].
  - vm_compute. reflexivity.
Defined.

(** ** The dispatch of the main loop *)

Lemma commonSense_decide_handled e s :
  commonSense_decide e = Some s -> In s handled.
Proof.
  unfold commonSense_decide, handled.
  repeat match goal with
         | |- context [if ?b then _ else _] => destruct b
         end; intros H; try discriminate; injection H as <-;
    cbn [In]; tauto.
Qed.

Lemma act_default fuel sense w :
  ~ In sense handled ->
  act fuel sense w =
  Some (tt, logged (defaultTrace (to_uint8 (maxSpeed (car w)))) w).
Proof.
  unfold handled. cbn [In]. intros H. unfold act.
  destruct (Z.eqb_spec sense CLEAR_PATH_AHEAD); [exfalso; apply H; subst; auto 10|].
  destruct (Z.eqb_spec sense PATH_CLOSING_UP); [exfalso; apply H; subst; auto 10|].
  destruct (Z.eqb_spec sense SEEK_ALTERNATE_ROUTE); [exfalso; apply H; subst; auto 10|].
  destruct (Z.eqb_spec sense NARROW_ROAD_LEFT_RIGHT); [exfalso; apply H; subst; auto 10|].
  destruct (Z.eqb_spec sense CLEAR_PATH_LEFT); [exfalso; apply H; subst; auto 10|].
  destruct (Z.eqb_spec sense CLEAR_PATH_RIGHT); [exfalso; apply H; subst; auto 10|].
  rewrite (bind_eq _ _ _ _ _ (neutral_spec _)).
  unfold delay. rewrite run_emit, logged_logged.
  rewrite (bind_eq _ _ _ _ _ (rightUTurn_spec _)).
  rewrite car_logged, logged_logged, emit_spec, logged_logged.
  unfold defaultTrace. rewrite <- !app_assoc. reflexivity.
Qed.

(** X12. The [default] case of the dispatch of [loop()] (stop, wait 100,
    right U-turn, wait 200) is what [PATH_BLOCKED] and every value outside
    the six handled situations get; no value that a [return] of
    [commonSense] yields reaches it. *)
Theorem dispatch_default :
  (forall fuel sense w,
      ~ In sense handled ->
      act fuel sense w =
      Some (tt, logged (defaultTrace (to_uint8 (maxSpeed (car w)))) w)) /\
  ~ In PATH_BLOCKED handled /\
  (forall e s, commonSense_decide e = Some s -> In s handled) /\
  (forall top st,
      phases st (defaultTrace top) =
      [(100, (mkMotorState (speedOf (fst st)) RELEASE,
              mkMotorState (speedOf (snd st)) RELEASE));
       (1250, (mkMotorState top FORWARD, mkMotorState top BACKWARD));
       (1000, both top RELEASE); (200, both top RELEASE)]).
Proof.
  split; [exact act_default|]. split; [|split].
  - unfold handled. cbn [In]. intros [H|[H|[H|[H|[H|[H|[]]]]]]]; discriminate.
  - exact commonSense_decide_handled.
  - intros top [[sl dl] [sr dr]]. reflexivity.
Qed.

Lemma dispatch_default_witness :
  act 1 PATH_BLOCKED (worldOf (steadyEnv 25 15 5) (0, 0, 0) 0) =
  Some (tt, logged (defaultTrace 250) (worldOf (steadyEnv 25 15 5) (0, 0, 0) 0)) /\
  In CLEAR_PATH_LEFT handled.
Proof.
  destruct dispatch_default as (Hd & Hn & Hh & _).
  split.
  - apply (Hd 1%nat PATH_BLOCKED (worldOf (steadyEnv 25 15 5) (0, 0, 0) 0)).
    exact Hn.
  - apply (Hh (mkEyes 25 15 5)). reflexivity.
Defined.

Lemma motorsAfter_driving speed w st :
  motorsAfter st (trace (driving speed w)) = both speed FORWARD.
Proof.
  rewrite trace_driving, motorsAfter_app.
  destruct (motorsAfter st (trace w)) as [[sl dl] [sr dr]]. reflexivity.
Qed.

Lemma motorsAfter_logged st t w :
  motorsAfter st (trace (logged t w)) = motorsAfter (motorsAfter st (trace w)) t.
Proof. unfold logged, set_trace. cbn [trace]. apply motorsAfter_app. Qed.

Lemma bypass_end route w w' :
  bypass route w = Some (tt, w') ->
  averageSpeed (car w') = 125 /\
  maxSpeed (car w') = maxSpeed (car w) /\
  forall st, motorsAfter st (trace w') = both 125 FORWARD.
Proof.
  unfold bypass.
  destruct (route =? CLEAR_PATH_LEFT); [|destruct (route =? CLEAR_PATH_RIGHT)].
  - rewrite (bind_eq _ _ _ _ _ (changeGear_spec _ _)).
    rewrite (bind_eq _ _ _ _ _ (reverse_spec _)).
    unfold delay. rewrite run_emit.
    rewrite (bind_eq _ _ _ _ _ (leftTurn_spec _)).
    rewrite (bind_eq _ _ _ _ _ (changeGear_spec _ _)).
    rewrite emit_spec. intros H. injection H as <-.
    split; [reflexivity|]. split; [reflexivity|].
    intros st. rewrite motorsAfter_logged, motorsAfter_driving. reflexivity.
  - rewrite (bind_eq _ _ _ _ _ (changeGear_spec _ _)).
    rewrite (bind_eq _ _ _ _ _ (reverse_spec _)).
    unfold delay. rewrite run_emit.
    rewrite (bind_eq _ _ _ _ _ (rightTurn_spec _)).
    rewrite (bind_eq _ _ _ _ _ (changeGear_spec _ _)).
    rewrite emit_spec. intros H. injection H as <-.
    split; [reflexivity|]. split; [reflexivity|].
    intros st. rewrite motorsAfter_logged, motorsAfter_driving. reflexivity.
  - rewrite changeGear_spec. intros H. injection H as <-.
    split; [reflexivity|]. split; [reflexivity|].
    intros st. apply motorsAfter_driving.
Qed.

Lemma motorsAfter_released st t top :
  (forall st0, motorsAfter st0 t = both top RELEASE) ->
  forall w, motorsAfter st (trace (logged t w)) = both top RELEASE.
Proof. intros H w. rewrite motorsAfter_logged. apply H. Qed.

Lemma turnTraces_release top st0 :
  motorsAfter st0 (leftTurnTrace top) = both top RELEASE /\
  motorsAfter st0 (rightTurnTrace top) = both top RELEASE /\
  motorsAfter st0 (leftUTurnTrace top) = both top RELEASE /\
  motorsAfter st0 (defaultTrace top) = both top RELEASE.
Proof. destruct st0 as [[sl dl] [sr dr]]. repeat split; reflexivity. Qed.

(** X13. However the dispatch of [loop()] ends, the car is either driving
    forward at the speed of its gear or released.  For ClearAhead it runs
    forward at the gear speed chosen for the front distance just
    measured; for PathClosing and for SeekAlternate (whichever bypass is
    taken) it runs forward at 125; for every other value (NarrowCorridor,
    ClearLeft, ClearRight and the default case) both motors are released
    with the turning speed [maxSpeed] still set.  [maxSpeed] itself never
    changes. *)
Theorem act_end_state :
  forall fuel sense w w' st,
    act fuel sense w = Some (tt, w') ->
    maxSpeed (car w') = maxSpeed (car w) /\
    (sense = CLEAR_PATH_AHEAD ->
     averageSpeed (car w') = gearSpeed (gearFor (front (eyes w'))) /\
     motorsAfter st (trace w') = both (averageSpeed (car w')) FORWARD) /\
    (sense = PATH_CLOSING_UP \/ sense = SEEK_ALTERNATE_ROUTE ->
     averageSpeed (car w') = 125 /\
     motorsAfter st (trace w') = both 125 FORWARD) /\
    (sense <> CLEAR_PATH_AHEAD -> sense <> PATH_CLOSING_UP ->
     sense <> SEEK_ALTERNATE_ROUTE ->
     motorsAfter st (trace w') = both (to_uint8 (maxSpeed (car w))) RELEASE).
Proof.
  intros fuel sense w w' st. unfold act.
  destruct (Z.eqb_spec sense CLEAR_PATH_AHEAD) as [->|Hn1].
  { intros H. apply bind_Some in H. destruct H as (g & w1 & Hs & H).
    rewrite changeGear_spec in H. injection H as <-.
    rewrite suggestGear_gearFor in Hs.
    destruct (measureFrontDistance fuel w) as [[d w0]|] eqn:E; [|discriminate].
    cbn in Hs. injection Hs as <- <-.
    destruct (measureFrontDistance_result _ _ _ _ E) as [_ Hf].
    destruct (measureFrontDistance_sensing _ _ _ _ E)
      as (_ & _ & _ & Hc & _).
    split; [cbn; rewrite Hc; reflexivity|].
    split; [|split].
    - intros _. split.
      + change (front (eyes (driving (gearSpeed (gearFor d)) w0)))
          with (front (eyes w0)). rewrite Hf. reflexivity.
      + apply motorsAfter_driving.
    - intros [H|H]; discriminate.
    - intros H. contradiction. }
  destruct (Z.eqb_spec sense PATH_CLOSING_UP) as [->|Hn2].
  { rewrite changeGear_spec. intros H. injection H as <-.
    split; [reflexivity|]. split; [intros H; discriminate|]. split.
    - intros _. split; [reflexivity | apply motorsAfter_driving].
    - intros _ H. contradiction. }
  destruct (Z.eqb_spec sense SEEK_ALTERNATE_ROUTE) as [->|Hn3].
  { rewrite (bind_eq _ _ _ _ _ (neutral_spec _)).
    unfold delay. rewrite run_emit, logged_logged.
    intros H. apply bind_Some in H. destruct H as (route & w1 & Hs & H).
    destruct (classification_sensing_seek _ _ _ _ Hs) as (_ & _ & _ & Hc & _).
    destruct (bypass_end _ _ _ H) as (Ha & Hm & Hend).
    split; [rewrite Hm, Hc; reflexivity|].
    split; [intros H0; discriminate|]. split.
    - intros _. split; [exact Ha | apply Hend].
    - intros _ _ H0. contradiction. }
  intros H.
  assert (Hrel : maxSpeed (car w') = maxSpeed (car w) /\
                 motorsAfter st (trace w') =
                 both (to_uint8 (maxSpeed (car w))) RELEASE).
  { destruct (Z.eqb_spec sense NARROW_ROAD_LEFT_RIGHT).
    { revert H. rewrite (bind_eq _ _ _ _ _ (neutral_spec _)).
      rewrite (bind_eq _ _ _ _ _ (reverse_spec _)).
      unfold delay. rewrite run_emit, leftUTurn_spec.
      intros H. injection H as <-.
      split; [reflexivity|]. apply motorsAfter_released.
      intros st0. apply turnTraces_release. }
    destruct (Z.eqb_spec sense CLEAR_PATH_LEFT).
    { revert H. rewrite (bind_eq _ _ _ _ _ (changeGear_spec _ _)).
      rewrite (bind_eq _ _ _ _ _ (reverse_spec _)).
      unfold delay. rewrite run_emit, leftTurn_spec.
      intros H. injection H as <-.
      split; [reflexivity|]. apply motorsAfter_released.
      intros st0. apply turnTraces_release. }
    destruct (Z.eqb_spec sense CLEAR_PATH_RIGHT).
    { revert H. rewrite (bind_eq _ _ _ _ _ (changeGear_spec _ _)).
      rewrite (bind_eq _ _ _ _ _ (reverse_spec _)).
      unfold delay. rewrite run_emit, rightTurn_spec.
      intros H. injection H as <-.
      split; [reflexivity|]. apply motorsAfter_released.
      intros st0. apply turnTraces_release. }
    revert H. rewrite (bind_eq _ _ _ _ _ (neutral_spec _)).
    unfold delay. rewrite run_emit, logged_logged.
    rewrite (bind_eq _ _ _ _ _ (rightUTurn_spec _)).
    rewrite car_logged, logged_logged, emit_spec, logged_logged.
    intros H. injection H as <-.
    split; [reflexivity|]. apply motorsAfter_released.
    intros [[sl dl] [sr dr]]. reflexivity. }
  destruct Hrel as [Hm Hrel].
  split; [exact Hm|]. split; [intros H0; contradiction|].
  split; [intros [H0|H0]; contradiction|].
  intros _ _ _. exact Hrel.
Qed.

Lemma act_end_state_witness :
  exists w',
    act 1 CLEAR_PATH_AHEAD (worldOf (steadyEnv 274 30 30) (0, 0, 0) 0)
    = Some (tt, w') /\
    averageSpeed (car w') = 175 /\
    motorsAfter (both 0 RELEASE) (trace w') = both 175 FORWARD.
Proof.
  eexists. split; [vm_compute; reflexivity|].
  refine ((fun H => _)
            (act_end_state 1 CLEAR_PATH_AHEAD
               (worldOf (steadyEnv 274 30 30) (0, 0, 0) 0) _
               (both 0 RELEASE) _)).
  - destruct H as (_ & Hahead & _).
    destruct (Hahead eq_refl) as (Ha & Hm).
    split; [exact Ha | exact Hm].
  - vm_compute. reflexivity.
Defined.

(** X14. The timelines of the three evasive cases of the dispatch, as the
    waits and what the motors do meanwhile.  ClearLeft and ClearRight
    back up for 250 at the speed of gear 1 (125), counter-rotate for 500 at
    [maxSpeed] and rest for 500.  NarrowCorridor sets no speed before it
    reverses: it backs up for 750 at whatever speeds the motors were left
    with, then counter-rotates to the left for 1250 and rests for 1000. *)
Theorem evasive_timelines :
  forall fuel w st,
    let top := to_uint8 (maxSpeed (car w)) in
    (exists t,
        act fuel CLEAR_PATH_LEFT w = Some (tt, logged t (driving 125 w)) /\
        phases st (driveCmds 125 ++ t) =
        [(250, both 125 BACKWARD);
         (500, (mkMotorState top BACKWARD, mkMotorState top FORWARD));
         (500, both top RELEASE)]) /\
    (exists t,
        act fuel CLEAR_PATH_RIGHT w = Some (tt, logged t (driving 125 w)) /\
        phases st (driveCmds 125 ++ t) =
        [(250, both 125 BACKWARD);
         (500, (mkMotorState top FORWARD, mkMotorState top BACKWARD));
         (500, both top RELEASE)]) /\
    (exists t,
        act fuel NARROW_ROAD_LEFT_RIGHT w = Some (tt, logged t w) /\
        phases st t =
        [(750, (mkMotorState (speedOf (fst st)) BACKWARD,
                mkMotorState (speedOf (snd st)) BACKWARD));
         (1250, (mkMotorState top BACKWARD, mkMotorState top FORWARD));
         (1000, both top RELEASE)]).
Proof.
  intros fuel w st top. destruct st as [[sl dl] [sr dr]].
  split; [|split].
  - eexists. split.
    + unfold act. cbn [Z.eqb CLEAR_PATH_LEFT CLEAR_PATH_AHEAD PATH_CLOSING_UP
        SEEK_ALTERNATE_ROUTE NARROW_ROAD_LEFT_RIGHT Pos.eqb].
      rewrite (bind_eq _ _ _ _ _ (changeGear_spec _ _)).
      rewrite (bind_eq _ _ _ _ _ (reverse_spec _)).
      unfold delay. rewrite run_emit, logged_logged, leftTurn_spec.
      rewrite logged_logged. reflexivity.
    + reflexivity.
  - eexists. split.
    + unfold act. cbn [Z.eqb CLEAR_PATH_RIGHT CLEAR_PATH_LEFT CLEAR_PATH_AHEAD
        PATH_CLOSING_UP SEEK_ALTERNATE_ROUTE NARROW_ROAD_LEFT_RIGHT Pos.eqb].
      rewrite (bind_eq _ _ _ _ _ (changeGear_spec _ _)).
      rewrite (bind_eq _ _ _ _ _ (reverse_spec _)).
      unfold delay. rewrite run_emit, logged_logged, rightTurn_spec.
      rewrite logged_logged. reflexivity.
    + reflexivity.
  - eexists. split.
    + unfold act. cbn [Z.eqb CLEAR_PATH_AHEAD PATH_CLOSING_UP
        SEEK_ALTERNATE_ROUTE NARROW_ROAD_LEFT_RIGHT Pos.eqb].
      rewrite (bind_eq _ _ _ _ _ (neutral_spec _)).
      rewrite (bind_eq _ _ _ _ _ (reverse_spec _)).
      unfold delay. rewrite logged_logged, run_emit, logged_logged.
      rewrite leftUTurn_spec, logged_logged. reflexivity.
    + reflexivity.
Qed.

(** ** The display of the readings *)

Lemma trace_sampled w :
  trace (frontSampled w) = trace w ++ repeat (Delay 5) (Z.to_nat (batchCount w)) /\
  trace (leftMeasured w) = trace w ++ repeat (Delay 5) (Z.to_nat (batchCount w)) /\
  trace (rightMeasured w) = trace w ++ repeat (Delay 5) (Z.to_nat (batchCount w)).
Proof. repeat split; reflexivity. Qed.

(** X15. With [debugMode] set, every look of the eyes ([commonSense] and
    [seekAlternateRoute]) ends by writing the three distances it has just
    measured on row 1 of the display: the row is blanked, then left goes
    to column 0, front to column 6 and right to column 13.  With
    [debugMode] clear, it writes nothing to the display. *)
Theorem readings_displayed :
  forall fuel w w',
    openEyesWide fuel w = Some (tt, w') ->
    (debugMode w <> 0 ->
     exists t,
       trace w' =
       t ++ [LcdSetCursor 0 1; LcdPrint "                ";
             LcdSetCursor 0 1; LcdPrintInt (left (eyes w'));
             LcdSetCursor 6 1; LcdPrintInt (front (eyes w'));
             LcdSetCursor 13 1; LcdPrintInt (right (eyes w'))]) /\
    (debugMode w = 0 ->
     exists n, trace w' = trace w ++ repeat (Delay 5) n).
Proof.
  unfold openEyesWide. intros fuel w w' H.
  apply bind_Some in H. destruct H as (v & w1 & Hfront & H).
  rewrite (bind_eq _ _ _ _ _ (measureLeftDistance_spec _)) in H.
  rewrite (bind_eq _ _ _ _ _ (measureRightDistance_spec _)) in H.
  rewrite run_gets in H.
  assert (H3 : sensing w (rightMeasured (leftMeasured w1))).
  { eapply sensing_trans; [eapply measureFrontDistance_sensing; exact Hfront|].
    eapply sensing_trans; [apply leftMeasured_sensing | apply rightMeasured_sensing]. }
  destruct H3 as (_ & _ & Hd & _). rewrite Hd in H.
  destruct (Z.eqb_spec (debugMode w) 0) as [Hz|Hnz].
  - unfold ret in H. injection H as <-.
    split; [intros Hc; contradiction|]. intros _.
    destruct (measureFrontDistance_first _ _ _ _ Hfront)
      as (k & _ & _ & _ & ->).
    assert (Hk : forall k w0, exists n,
               trace (Nat.iter k frontSampled w0) =
               trace w0 ++ repeat (Delay 5) n).
    { clear. induction k as [|k IH]; intros w0.
      - exists 0%nat. cbn. rewrite app_nil_r. reflexivity.
      - destruct (IH w0) as (n & Hn).
        change (Nat.iter (S k) frontSampled w0)
          with (frontSampled (Nat.iter k frontSampled w0)).
        exists (n + Z.to_nat (batchCount (Nat.iter k frontSampled w0)))%nat.
        rewrite (proj1 (trace_sampled _)).
        rewrite Hn, <- app_assoc, repeat_app. reflexivity. }
    destruct (Hk (S k) w) as (n & Hn).
    exists (n + Z.to_nat (batchCount (Nat.iter (S k) frontSampled w))
            + Z.to_nat (batchCount
                          (leftMeasured (Nat.iter (S k) frontSampled w))))%nat.
    rewrite (proj2 (proj2 (trace_sampled _))).
    rewrite (proj1 (proj2 (trace_sampled _))).
    rewrite Hn, <- !app_assoc, !repeat_app, <- !app_assoc. reflexivity.
  - split; [|intros Hc; contradiction]. intros _.
    revert H. run_events. intros H. injection H as <-.
    eexists. unfold logged, set_trace. cbn [trace eyes]. reflexivity.
Qed.

Lemma readings_displayed_witness :
  exists w' t,
    openEyesWide 1 (worldOf (steadyEnv 25 15 5) (0, 0, 0) 0) = Some (tt, w') /\
    trace w' =
    t ++ [LcdSetCursor 0 1; LcdPrint "                ";
          LcdSetCursor 0 1; LcdPrintInt 15;
          LcdSetCursor 6 1; LcdPrintInt 25;
          LcdSetCursor 13 1; LcdPrintInt 5].
Proof.
  destruct (openEyesWide 1 (worldOf (steadyEnv 25 15 5) (0, 0, 0) 0))
    as [[[] w']|] eqn:E; [|vm_compute in E; discriminate].
  destruct (readings_displayed 1 _ w' E) as (Hon & _).
  destruct Hon as (t & Ht); [cbn; discriminate|].
  exists w', t. split; [reflexivity|].
  vm_compute in E. injection E as <-. exact Ht.
Defined.

(** ** After a recovery *)

Lemma recoveryCmds_release top l r st :
  motorsAfter st (recoveryCmds top l r) = both top RELEASE.
Proof.
  unfold recoveryCmds. destruct st as [[sl dl] [sr dr]].
  destruct (l >? r); reflexivity.
Qed.

(** X16. A firing of [rescueMission] that recovers leaves the car
    standing: when the front distance changed by at most 10 and either is
    below 100, or is above 100 with a change of at most 5 at a stagnation
    counter of 2, the mission returns with the counter at 0 and both
    motors released, [maxSpeed] being the speed last set. *)
Theorem recovery_ends_released :
  forall fuel w current w1 st,
    5000 < elapsed w ->
    measureFrontDistance fuel (tick w) = Some (current, w1) ->
    let df := frontDelta (fst (fst (beforeEyes w))) current in
    df <= 10 ->
    (current < 100 \/ (100 < current /\ df <= 5 /\ longVision w = 2)) ->
    exists w',
      rescueMission fuel w = Some (tt, w') /\
      longVision w' = 0 /\
      motorsAfter st (trace w') = both (to_uint8 (maxSpeed (car w))) RELEASE.
Proof.
  intros fuel w current w1 st Hfire Hfront df Hdf Hcond.
  destruct (rescueMission_fires fuel w current w1 Hfire Hfront)
    as (w' & Hrun & _ & _ & Hcase).
  exists w'. split; [exact Hrun|].
  cbv zeta in Hcase. fold df in Hcase.
  destruct (Z.leb_spec df 10); [|lia]. cbn [andb] in Hcase.
  assert (Hrec : longVision w' = 0 /\
                 exists l r,
                   motorCmds (trace w') =
                   motorCmds (trace w) ++
                   recoveryCmds (to_uint8 (maxSpeed (car w))) l r).
  { destruct Hcond as [Hc|(Hc & Hd & Hlv)].
    - destruct (Z.ltb_spec current 100); [|lia].
      rewrite orb_true_r in Hcase.
      destruct Hcase as (Hl & Ht & _). split; [exact Hl|]. eauto.
    - destruct (Z.gtb_spec current 100); [|lia].
      destruct (Z.leb_spec df 5); [|lia].
      cbn [andb] in Hcase. rewrite Hlv in Hcase.
      change (wrap16 (2 + 1) >? 2) with true in Hcase.
      cbn [orb] in Hcase.
      destruct Hcase as (Hl & Ht & _). split; [exact Hl|]. eauto. }
  destruct Hrec as (Hl & l & r & Ht). split; [exact Hl|].
  rewrite <- motorsAfter_motorCmds, Ht, motorsAfter_app.
  apply recoveryCmds_release.
Qed.

Lemma recovery_ends_released_witness :
  exists w',
    rescueMission 1 (worldOf (steadyEnv 60 70 20) (65, 0, 0) 0)
    = Some (tt, w') /\
    longVision w' = 0 /\
    motorsAfter (both 150 FORWARD) (trace w') = both 250 RELEASE.
Proof.
  apply (recovery_ends_released 1
           (worldOf (steadyEnv 60 70 20) (65, 0, 0) 0) 60
           (frontSampled (tick (worldOf (steadyEnv 60 70 20) (65, 0, 0) 0)))
           (both 150 FORWARD)).
  - vm_compute. reflexivity.
  - reflexivity.
  - vm_compute. discriminate.
  - left. lia.
Defined.
